(** * boomer: worker spawner, hatch/stop/close lifecycle and agent state machine

    A shallow embedding of [runner.go].  Go values are modelled as follows:
    - [int] and [int32] are [Z] with the wrap-around written out;
    - [float64] is Rocq's primitive binary64 [float];
    - [map[string]interface{}] is [option (gmap string value)], [None] being
      the nil map;
    - channels that are only ever closed and polled ([stopChan], [closeChan])
      live in a heap of flags, so that the spawner and the runner can alias
      the same channel;
    - every call into a collaborator (transport, stats, rate limiter, output
      sinks, event bus) is recorded, in program order, in a trace;
    - a Go panic is the [Panicked] result of the runner monad.
    Logging statements ([fmt.Printf], [log.Println]) do not touch the runner
    and are left out. *)

From Stdlib Require Import ZArith Floats Uint63.
From stdpp Require Import base option list gmap strings.

Local Open Scope Z_scope.

(** ** Go primitives *)

Module Go.

(** Two's complement wrap-around of a [bits]-wide signed integer. *)
Definition wrap (bits : Z) (z : Z) : Z :=
  (z + 2 ^ (bits - 1)) mod 2 ^ bits - 2 ^ (bits - 1).

Definition int (z : Z) : Z := wrap 64 z.
Definition int32 (z : Z) : Z := wrap 32 z.

Definition max_int32 : Z := 2 ^ 31 - 1.
Definition min_int : Z := - 2 ^ 63.
Definition max_int : Z := 2 ^ 63 - 1.

(** [float64(z)] for an [int] [z]: round to nearest even. *)
Definition float64_of_nonneg (z : Z) : float :=
  if z <? 2 ^ 63 then PrimFloat.of_uint63 (Uint63.of_Z z)
  else 0x1p+63%float.

Definition float64_of_int (z : Z) : float :=
  if z <? 0 then PrimFloat.opp (float64_of_nonneg (- z))
  else float64_of_nonneg z.

(** [int(f)] for a [float64] [f]: the fraction is discarded (truncation
    towards zero).  When the value does not fit (or is NaN or infinite) Go
    leaves the result to the implementation; the value taken here is the
    one of amd64. *)
Definition int_of_float64 (f : float) : Z :=
  match Prim2SF f with
  | S754_zero _ => 0
  | S754_finite s m e =>
      let v := if 0 <=? e then Z.pos m * 2 ^ e else Z.pos m / 2 ^ (- e) in
      let v := if s then - v else v in
      if (min_int <=? v) && (v <=? max_int) then v else min_int
  | _ => min_int
  end.

End Go.

(** ** Data model *)

(** Dynamic values found behind [interface{}] in a message payload. *)
Inductive value : Type :=
| VFloat64 (f : float)
| VInt64 (z : Z)
| VUint64 (z : Z)
| VInt32 (z : Z)
| VString (s : string)
| VBool (b : bool).

(** A payload; [None] is the nil map. *)
Abbreviation payload := (option (gmap string value)).

(** [data[key]]: indexing the nil map or a missing key gives the nil
    interface. *)
Definition map_index (data : payload) (key : string) : option value :=
  match data with
  | Some m => m !! key
  | None => None
  end.

Record message : Type := newMessage {
  Type_ : string;
  Data : payload;
  NodeID : string
}.

(** What a task body does when it is called: it returns, or it panics with
    an error value. *)
Inductive task_fn : Type :=
| FnReturns
| FnPanics (err : string).

Record Task : Type := mkTask {
  Name : string;
  Weight : Z;
  Fn : task_fn
}.

Definition stateInit : string := "ready".
Definition stateHatching : string := "hatching".
Definition stateRunning : string := "running".
Definition stateStopped : string := "stopped".
Definition stateQuitting : string := "quitting".

(** A channel variable is nil or refers to a channel of the heap. *)
Inductive chan : Type :=
| ChanNil
| ChanRef (id : nat).

(** The function values passed as [hatchCompleteFunc]. *)
Inductive callback : Type :=
| HatchComplete.

(** The handlers this file subscribes on the event bus. *)
Inductive handler : Type :=
| OnQuiting.

(** Calls into the collaborators, in program order. *)
Inductive event : Type :=
| Send (m : message)
| Publish (topic : string) (args : list Z)
| OutputOnStart (o : nat)
| OutputOnEvent (o : nat) (data : payload)
| OutputOnStop (o : nat)
| StatsStart
| StatsClear
| StatsClose
| ClientConnect
| ClientClose
| RateLimiterStart
| RateLimiterStop
| RateLimiterAcquire
| GoWorker (quit : chan)
| CallHatchCompleteFunc (f : callback)
| Sleep (hatchRate : Z)
| RunTask (name : string)
| Stderr (msg : string).

(** Where a [spawnWorkers] goroutine stands: in its loop, returned from the
    [quit] case, or returned from the end of the function. *)
Inductive spawn_pc : Type :=
| SpawnLooping
| SpawnAborted
| SpawnReturned.

(** The parameters and locals of one [spawnWorkers] goroutine. *)
Record spawner : Type := mkSpawner {
  sp_spawnCount : Z;
  sp_quit : chan;
  sp_hatchCompleteFunc : option callback;
  sp_weightSum : Z;
  sp_i : Z;
  sp_pc : spawn_pc
}.

(** The fields of [runner], [localRunner] and [slaveRunner].  [stats] and
    [client] tell whether the pointer is non-nil; the rate limiter is
    non-nil exactly when [rateLimitEnabled]. *)
Record runner : Type := mkRunner {
  hatchType : string;
  state : string;
  tasks : list Task;
  rateLimitEnabled : bool;
  stats : bool;
  numClients : Z;
  hatchRate : Z;
  stopChan : chan;
  closeChan : chan;
  outputs : list nat;
  hatchCount : Z;
  nodeID : string;
  client : bool
}.

(** The runner and the process state around it: the channel heap ([true] is
    closed), the goroutines running [spawnWorkers], the subscriptions of the
    event bus, and the trace. *)
Record world : Type := mkWorld {
  rn : runner;
  chans : list bool;
  spawners : list spawner;
  subscriptions : list (string * handler);
  trace : list event
}.

Definition set_state (s : string) (r : runner) : runner :=
  mkRunner (hatchType r) s (tasks r) (rateLimitEnabled r) (stats r)
    (numClients r) (hatchRate r) (stopChan r) (closeChan r) (outputs r)
    (hatchCount r) (nodeID r) (client r).

Definition set_numClients (n : Z) (r : runner) : runner :=
  mkRunner (hatchType r) (state r) (tasks r) (rateLimitEnabled r) (stats r)
    n (hatchRate r) (stopChan r) (closeChan r) (outputs r)
    (hatchCount r) (nodeID r) (client r).

Definition set_hatchRate (n : Z) (r : runner) : runner :=
  mkRunner (hatchType r) (state r) (tasks r) (rateLimitEnabled r) (stats r)
    (numClients r) n (stopChan r) (closeChan r) (outputs r)
    (hatchCount r) (nodeID r) (client r).

Definition set_stopChan (c : chan) (r : runner) : runner :=
  mkRunner (hatchType r) (state r) (tasks r) (rateLimitEnabled r) (stats r)
    (numClients r) (hatchRate r) c (closeChan r) (outputs r)
    (hatchCount r) (nodeID r) (client r).

Definition set_client (c : bool) (r : runner) : runner :=
  mkRunner (hatchType r) (state r) (tasks r) (rateLimitEnabled r) (stats r)
    (numClients r) (hatchRate r) (stopChan r) (closeChan r) (outputs r)
    (hatchCount r) (nodeID r) c.

Definition set_outputs (os : list nat) (r : runner) : runner :=
  mkRunner (hatchType r) (state r) (tasks r) (rateLimitEnabled r) (stats r)
    (numClients r) (hatchRate r) (stopChan r) (closeChan r) os
    (hatchCount r) (nodeID r) (client r).

Definition with_rn (f : runner -> runner) (w : world) : world :=
  mkWorld (f (rn w)) (chans w) (spawners w) (subscriptions w) (trace w).

Definition with_chans (f : list bool -> list bool) (w : world) : world :=
  mkWorld (rn w) (f (chans w)) (spawners w) (subscriptions w) (trace w).

Definition with_spawners (f : list spawner -> list spawner) (w : world) : world :=
  mkWorld (rn w) (chans w) (f (spawners w)) (subscriptions w) (trace w).

Definition with_subscriptions
    (f : list (string * handler) -> list (string * handler)) (w : world) : world :=
  mkWorld (rn w) (chans w) (spawners w) (f (subscriptions w)) (trace w).

Definition with_trace (f : list event -> list event) (w : world) : world :=
  mkWorld (rn w) (chans w) (spawners w) (subscriptions w) (f (trace w)).

(** ** The runner monad: state passing with panics *)

Inductive result (A : Type) : Type :=
| Done (a : A) (w : world)
| Panicked (why : string) (w : world).
Arguments Done {A} a w.
Arguments Panicked {A} why w.

Definition M (A : Type) : Type := world -> result A.

#[export] Instance M_ret : MRet M := fun A a w => Done a w.

#[export] Instance M_bind : MBind M := fun A B f c w =>
  match c w with
  | Done a w' => f a w'
  | Panicked why w' => Panicked why w'
  end.

Definition panic {A : Type} (why : string) : M A := fun w => Panicked why w.
Definition get : M world := fun w => Done w w.
Definition modify (f : world -> world) : M unit := fun w => Done tt (f w).
Definition emit (e : event) : M unit := modify (with_trace (fun t => t ++ [e])).

(** The world a computation stopped in, whether it returned or panicked. *)
Definition world_of {A : Type} (res : result A) : world :=
  match res with
  | Done _ w => w
  | Panicked _ w => w
  end.

Definition panicked {A : Type} (res : result A) : bool :=
  match res with
  | Done _ _ => false
  | Panicked _ _ => true
  end.

(** [for _, x := range l { body }] *)
Fixpoint for_range {A : Type} (l : list A) (body : A -> M unit) : M unit :=
  match l with
  | [] => mret tt
  | x :: l' => body x;; for_range l' body
  end.

(** ** Channels *)

Definition nil_dereference : string :=
  "invalid memory address or nil pointer dereference".

(** [make(chan bool)] *)
Definition make_chan : M chan := fun w =>
  Done (ChanRef (length (chans w))) (with_chans (fun h => h ++ [false]) w).

(** Whether a receive from [c] is ready.  Nothing is ever sent on
    [stopChan] or [closeChan], so this is so exactly when [c] is closed; a
    receive from the nil channel is never ready. *)
Definition is_closed (c : chan) (w : world) : bool :=
  match c with
  | ChanNil => false
  | ChanRef id => default false (chans w !! id)
  end.

(** [close(c)] panics on the nil channel and on a closed channel. *)
Definition close_chan (c : chan) : M unit := fun w =>
  match c with
  | ChanNil => Panicked "close of nil channel" w
  | ChanRef id =>
      match chans w !! id with
      | Some false => Done tt (with_chans (fun h => <[id := true]> h) w)
      | Some true => Panicked "close of closed channel" w
      | None => Panicked "close of nil channel" w
      end
  end.

(** ** Collaborators *)

(** [r.client.sendChannel() <- newMessage(type, data, r.nodeID)] *)
Definition send (type_ : string) (data : payload) : M unit :=
  w ← get;
  if client (rn w)
  then emit (Send (newMessage type_ data (nodeID (rn w))))
  else panic nil_dereference.

Definition onQuiting : M unit :=
  w ← get;
  if negb (String.eqb (state (rn w)) stateQuitting)
  then send "quit" None
  else mret tt.

Definition call_handler (h : handler) : M unit :=
  match h with
  | OnQuiting => onQuiting
  end.

(** Modelled from the spec: the process-wide event notifier
    ([Events.Publish], [Events.Subscribe]), which [runner.go] uses and does
    not define.  It is publish/subscribe by string topic: publishing calls
    the handlers subscribed to the topic, in the order of subscription, and
    returns when they have returned. *)
Definition Events_Publish (topic : string) (args : list Z) : M unit :=
  emit (Publish topic args);;
  w ← get;
  for_range (subscriptions w) (fun sub =>
    if String.eqb (fst sub) topic then call_handler (snd sub) else mret tt).

Definition Events_Subscribe (topic : string) (h : handler) : M unit :=
  modify (with_subscriptions (fun subs => subs ++ [(topic, h)])).

Definition addOutput (o : nat) : M unit :=
  modify (with_rn (fun r => set_outputs (outputs r ++ [o]) r)).

(** The three fan-outs start one goroutine per sink and join them; the
    sinks are listed here in registration order. *)
Definition outputOnStart : M unit :=
  w ← get; for_range (outputs (rn w)) (fun o => emit (OutputOnStart o)).

Definition outputOnEevent (data : payload) : M unit :=
  w ← get; for_range (outputs (rn w)) (fun o => emit (OutputOnEvent o data)).

Definition outputOnStop : M unit :=
  w ← get; for_range (outputs (rn w)) (fun o => emit (OutputOnStop o)).

(** [r.safeRun(fn)]: a panic of the task body is recovered and written to
    the error stream. *)
Definition safeRun (t : Task) : M unit :=
  emit (RunTask (Name t));;
  match Fn t with
  | FnReturns => mret tt
  | FnPanics err => emit (Stderr err)
  end.

(** ** Weighted selection *)

Definition getWeightSum (ts : list Task) : Z :=
  fold_left (fun weightSum task => Go.int (weightSum + Weight task)) ts 0.

(** The values the shared random source hands out at one selection event:
    [Int63] is the 63-bit value [Int63n] reduces, [Float64] the value of
    [random.Float64()]. *)
Record random : Type := mkRandom {
  Int63 : Z;
  Float64 : float
}.

(** [random.Int63n(n)] panics unless [0 < n]; otherwise it is the accepted
    63-bit draw reduced modulo [n]. *)
Definition Int63n (rnd : random) (n : Z) : M Z :=
  if n <=? 0 then panic "invalid argument to Int63n"
  else mret (Int63 rnd mod n).

(** [float64(task.Weight) / float64(weightSum)] *)
Definition percent (weightSum : Z) (task : Task) : float :=
  PrimFloat.div (Go.float64_of_int (Weight task)) (Go.float64_of_int weightSum).

(** The [for _, task := range r.tasks] loop of the selection, with its
    [break]. *)
Fixpoint select_loop (index : float) (weightSum : Z) (ts : list Task)
    (selected : option Task) : option Task :=
  match ts with
  | [] => selected
  | task :: rest =>
      if PrimFloat.leb index (percent weightSum task)
      then Some task
      else select_loop index weightSum rest selected
  end.

(** Lines 155 to 175: the value of [selected] after one selection event. *)
Definition select_task (ts : list Task) (weightSum : Z) (rnd : random)
    : M (option Task) :=
  if weightSum =? 0 then
    index ← Int63n rnd (Z.of_nat (length ts));
    match ts !! Z.to_nat index with
    | Some task => mret (Some task)
    | None => panic "index out of range"
    end
  else
    mret (select_loop (Float64 rnd) weightSum ts None).

(** What one turn of a worker's [for] loop ends in. *)
Inductive worker_next : Type :=
| WorkerReturn
| WorkerContinue.

(** One turn of the loop of a simulated user.  [quit_closed] is what the
    [select] sees on [quit], [blocked] what the rate limiter answers. *)
Definition worker_iter (quit_closed blocked : bool) (weightSum : Z)
    (rnd : random) : M worker_next :=
  if quit_closed then mret WorkerReturn
  else
    w ← get;
    acquired ←
      (if rateLimitEnabled (rn w)
       then emit RateLimiterAcquire;; mret (negb blocked)
       else mret true);
    if acquired : bool then
      selected ← select_task (tasks (rn w)) weightSum rnd;
      match selected with
      | Some task => safeRun task
      | None => mret tt
      end;;
      mret WorkerContinue
    else mret WorkerContinue.

(** ** The worker spawner *)

Definition set_pc (p : spawn_pc) (s : spawner) : spawner :=
  mkSpawner (sp_spawnCount s) (sp_quit s) (sp_hatchCompleteFunc s)
    (sp_weightSum s) (sp_i s) p.

Definition set_i (n : Z) (s : spawner) : spawner :=
  mkSpawner (sp_spawnCount s) (sp_quit s) (sp_hatchCompleteFunc s)
    (sp_weightSum s) n (sp_pc s).

Definition hatchComplete : M unit :=
  w ← get;
  let data : gmap string value := {[ "count" := VInt32 (numClients (rn w)) ]} in
  send "hatch_complete" (Some data);;
  modify (with_rn (set_state stateRunning)).

Definition call (f : callback) : M unit :=
  match f with
  | HatchComplete => hatchComplete
  end.

(** One pass through [spawnWorkers] from the loop test on: either one turn
    of the [for] loop (lines 134 to 195), or, when the loop test fails, the
    end of the function (lines 197 to 199).  [quit_closed] is what the
    [select] of line 135 sees on [quit]. *)
Definition spawnWorkers_iter (quit_closed : bool) (s : spawner) : M spawner :=
  if sp_i s <? sp_spawnCount s then
    if quit_closed then mret (set_pc SpawnAborted s)
    else
      emit (GoWorker (sp_quit s));;
      modify (with_rn (fun r => set_numClients (Go.int32 (numClients r + 1)) r));;
      w ← get;
      (if negb (hatchRate (rn w) =? 0) && String.eqb (hatchType (rn w)) "smooth"
       then emit (Sleep (hatchRate (rn w)))
       else mret tt);;
      mret (set_i (sp_i s + 1) s)
  else
    match sp_hatchCompleteFunc s with
    | Some f => emit (CallHatchCompleteFunc f);; call f
    | None => mret tt
    end;;
    mret (set_pc SpawnReturned s).

(** The locals of [spawnWorkers] on entry. *)
Definition spawnWorkers_entry (spawnCount : Z) (quit : chan)
    (f : option callback) (w : world) : spawner :=
  mkSpawner spawnCount quit f (getWeightSum (tasks (rn w))) 0 SpawnLooping.

(** [spawnWorkers] run to its return, against the values [observe i] that
    the [select] sees on [quit] when the loop counter is [i]. *)
Fixpoint spawnWorkers_loop (fuel : nat) (observe : Z -> bool) (s : spawner)
    : M spawner :=
  match sp_pc s, fuel with
  | SpawnLooping, S fuel' =>
      s' ← spawnWorkers_iter (observe (sp_i s)) s;
      spawnWorkers_loop fuel' observe s'
  | _, _ => mret s
  end.

Definition spawnWorkers (observe : Z -> bool) (spawnCount : Z) (quit : chan)
    (f : option callback) : M spawner :=
  w ← get;
  spawnWorkers_loop (S (Z.to_nat spawnCount)) observe
    (spawnWorkers_entry spawnCount quit f w).

(** [go r.spawnWorkers(spawnCount, quit, f)] *)
Definition go_spawnWorkers (spawnCount : Z) (quit : chan)
    (f : option callback) : M unit :=
  w ← get;
  modify (with_spawners (fun l => l ++ [spawnWorkers_entry spawnCount quit f w])).

(** The scheduler lets the [spawnWorkers] goroutine [tid] make one pass. *)
Definition spawner_step (tid : nat) : M unit :=
  w ← get;
  match spawners w !! tid with
  | Some s =>
      match sp_pc s with
      | SpawnLooping =>
          s' ← spawnWorkers_iter (is_closed (sp_quit s) w) s;
          modify (with_spawners (fun l => <[tid := s']> l))
      | _ => mret tt
      end
  | None => mret tt
  end.

(** A turn of the loop that finds [quit] open is not one step of the
    goroutine: between its statements the scheduler can let the listener
    run.  The turn in two steps: the [select] that finds [quit] open
    followed by the [go] statement (lines 135 to 184), and then the
    increment of the count, the pause and [i++] (lines 186 to 193). *)
Definition spawnWorkers_go (s : spawner) : M unit :=
  emit (GoWorker (sp_quit s)).

Definition spawnWorkers_count (s : spawner) : M spawner :=
  modify (with_rn (fun r => set_numClients (Go.int32 (numClients r + 1)) r));;
  w ← get;
  (if negb (hatchRate (rn w) =? 0) && String.eqb (hatchType (rn w)) "smooth"
   then emit (Sleep (hatchRate (rn w)))
   else mret tt);;
  mret (set_i (sp_i s + 1) s).

(** A pass of the [spawnWorkers] goroutine [tid] during which the scheduler
    lets [others] run: when the pass is a turn of the loop that finds [quit]
    open, [others] runs after the worker is started and before the count is
    incremented; a pass that returns has no second step, and [others] runs
    after it. *)
Definition preempted_pass (tid : nat) (others : M unit) : M unit :=
  w ← get;
  match spawners w !! tid with
  | Some s =>
      match sp_pc s with
      | SpawnLooping =>
          if (sp_i s <? sp_spawnCount s) && negb (is_closed (sp_quit s) w) then
            spawnWorkers_go s;;
            others;;
            s' ← spawnWorkers_count s;
            modify (with_spawners (fun l => <[tid := s']> l))
          else spawner_step tid;; others
      | _ => others
      end
  | None => others
  end.

(** ** Hatch, stop, close *)

Definition startHatching (spawnCount hatchRate : Z) (f : option callback)
    : M unit :=
  w ← get;
  (if stats (rn w) then emit StatsClear else panic nil_dereference);;
  c ← make_chan;
  modify (with_rn (set_stopChan c));;
  modify (with_rn (set_hatchRate hatchRate));;
  modify (with_rn (set_numClients 0));;
  outputOnStart;;
  go_spawnWorkers spawnCount c f.

Definition stop : M unit :=
  outputOnStop;;
  Events_Publish "boomer:stop" [];;
  w ← get;
  close_chan (stopChan (rn w));;
  if rateLimitEnabled (rn w) then emit RateLimiterStop else mret tt.

Definition localRunner_close : M unit :=
  w ← get;
  (if stats (rn w) then emit StatsClose else mret tt);;
  close_chan (closeChan (rn w)).

Definition slaveRunner_close : M unit :=
  w ← get;
  (if stats (rn w) then emit StatsClose else mret tt);;
  (if client (rn w) then emit ClientClose else mret tt);;
  close_chan (closeChan (rn w)).

(** ** Agent mode: the state machine *)

Definition onHatchMessage (msg : message) : M unit :=
  let rate := map_index (Data msg) "hatch_rate" in
  match rate with
  | Some (VFloat64 f) =>
      let hatchRate := Go.int_of_float64 f in
      let clients := map_index (Data msg) "num_clients" in
      workers ←
        match clients with
        | Some (VUint64 u) => mret (Go.int u)
        | Some (VInt64 n) => mret n
        | _ => panic "interface conversion: interface {} is not int64"
        end;
      send "hatching" None;;
      Events_Publish "boomer:hatch" [workers; hatchRate];;
      w ← get;
      (if rateLimitEnabled (rn w) then emit RateLimiterStart else mret tt);;
      startHatching workers hatchRate (Some HatchComplete)
  | _ => panic "interface conversion: interface {} is not float64"
  end.

Definition onMessage (msg : message) : M unit :=
  w ← get;
  let st := state (rn w) in
  if String.eqb st stateInit then
    if String.eqb (Type_ msg) "hatch" then
      modify (with_rn (set_state stateHatching));;
      onHatchMessage msg
    else if String.eqb (Type_ msg) "quit" then
      Events_Publish "boomer:quit" []
    else mret tt
  else if String.eqb st stateHatching || String.eqb st stateRunning then
    if String.eqb (Type_ msg) "hatch" then
      modify (with_rn (set_state stateHatching));;
      stop;;
      onHatchMessage msg
    else if String.eqb (Type_ msg) "stop" then
      stop;;
      modify (with_rn (set_state stateStopped));;
      send "client_stopped" None;;
      send "client_ready" None;;
      modify (with_rn (set_state stateInit))
    else if String.eqb (Type_ msg) "quit" then
      stop;;
      Events_Publish "boomer:quit" [];;
      modify (with_rn (set_state stateInit))
    else mret tt
  else if String.eqb st stateStopped then
    if String.eqb (Type_ msg) "hatch" then
      modify (with_rn (set_state stateHatching));;
      onHatchMessage msg
    else if String.eqb (Type_ msg) "quit" then
      Events_Publish "boomer:quit" [];;
      modify (with_rn (set_state stateInit))
    else mret tt
  else mret tt.

(** [data[key] = v]: assignment to an entry of the nil map panics. *)
Definition map_assign (data : payload) (key : string) (v : value) : M payload :=
  match data with
  | Some m => mret (Some (<[key := v]> m))
  | None => panic "assignment to entry in nil map"
  end.

(** The body of the first [case] of the reporting goroutine of
    [slaveRunner.run] (lines 469 to 475), for one stats event [data]. *)
Definition slaveRunner_report (data : payload) : M unit :=
  w ← get;
  if String.eqb (state (rn w)) stateInit || String.eqb (state (rn w)) stateStopped
  then mret tt
  else
    data ← map_assign data "user_count" (VInt32 (numClients (rn w)));
    send "stats" data;;
    outputOnEevent data.

(** The body of the ticker [case] of the heartbeat goroutine. *)
Definition slaveRunner_heartbeat : M unit :=
  w ← get;
  let data : gmap string value := {[ "state" := VString (state (rn w)) ]} in
  send "heartbeat" (Some data).

(** [slaveRunner.run], up to the goroutines it starts; [connect_failed]
    tells whether [r.client.connect()] returns an error. *)
Definition slaveRunner_run (connect_failed : bool) : M unit :=
  modify (with_rn (set_state stateInit));;
  modify (with_rn (set_client true));;
  emit ClientConnect;;
  if connect_failed then mret tt
  else
    w ← get;
    (if stats (rn w) then emit StatsStart else panic nil_dereference);;
    send "client_ready" None;;
    Events_Subscribe "boomer:quit" OnQuiting.

(** The two [case]s of the relay goroutine of [localRunner.run]. *)
Definition localRunner_report (data : payload) : M unit :=
  w ← get;
  data ← map_assign data "user_count" (VInt32 (numClients (rn w)));
  outputOnEevent data.

Definition localRunner_onClose : M unit :=
  Events_Publish "boomer:quit" [];;
  stop.

(** [localRunner.run], up to [wg.Wait()]. *)
Definition localRunner_run : M unit :=
  modify (with_rn (set_state stateInit));;
  w ← get;
  (if stats (rn w) then emit StatsStart else panic nil_dereference);;
  (if rateLimitEnabled (rn w) then emit RateLimiterStart else mret tt);;
  startHatching (hatchCount (rn w)) (hatchRate (rn w)) None.

(** The constructors.  [rateLimiter] tells whether a limiter was given;
    [id] is what [getNodeID()] returns.  Channel 0 of the heap is
    [closeChan]; output 0 is the console output. *)
Definition newLocalRunner (ts : list Task) (rateLimiter : bool)
    (hatchCount : Z) (hatchType : string) (hatchRate : Z) : world :=
  mkWorld
    (mkRunner hatchType "" ts rateLimiter true 0 hatchRate ChanNil (ChanRef 0)
       [0%nat] hatchCount "" false)
    [false] [] [] [].

Definition newSlaveRunner (id : string) (ts : list Task) (rateLimiter : bool)
    (hatchType : string) : world :=
  mkWorld
    (mkRunner hatchType "" ts rateLimiter true 0 0 ChanNil (ChanRef 0)
       [] 0 id false)
    [false] [] [] [].

(** ** Agent mode as a process: the goroutines, interleaved *)

(** What the scheduler can let happen next: the listener receives a message
    and runs [onMessage]; a [spawnWorkers] goroutine makes one pass; the
    reporting goroutine receives a stats event; the heartbeat ticks. *)
Inductive action : Type :=
| Recv (msg : message)
| Spawn (tid : nat)
| Report (data : payload)
| Heartbeat.

Definition step (a : action) : M unit :=
  match a with
  | Recv msg => onMessage msg
  | Spawn tid => spawner_step tid
  | Report data => slaveRunner_report data
  | Heartbeat => slaveRunner_heartbeat
  end.

Definition exec (acts : list action) : M unit := for_range acts step.

(** ** Observations on traces *)

(** The types of the messages sent to the controller, in order. *)
Definition sent (t : list event) : list string :=
  omap (fun e => match e with Send m => Some (Type_ m) | _ => None end) t.

(** The [quit] channels of the worker goroutines started, in order. *)
Definition workers_of (t : list event) : list chan :=
  omap (fun e => match e with GoWorker q => Some q | _ => None end) t.

(** The number of worker goroutines started. *)
Definition launched (t : list event) : Z := Z.of_nat (length (workers_of t)).

(** The callbacks called by spawners, in order. *)
Definition fired (t : list event) : list callback :=
  omap (fun e => match e with CallHatchCompleteFunc f => Some f | _ => None end) t.

(** The names of the tasks run, in order. *)
Definition ran (t : list event) : list string :=
  omap (fun e => match e with RunTask n => Some n | _ => None end) t.

(** * Vocabulary of the statements *)

(** The task's own share of the weight sum reaches the draw. *)
Definition reaches (index : float) (weightSum : Z) (task : Task) : Prop :=
  PrimFloat.leb index (percent weightSum task) = true.

#[local] Instance reaches_dec index weightSum task :
  Decision (reaches index weightSum task).
Proof. unfold reaches. apply _. Defined.

(** [task], at position [k], is the first task of [ts] with property [P]. *)
Definition first_in_order (P : Task -> Prop) (ts : list Task) (k : nat)
    (task : Task) : Prop :=
  ts !! k = Some task /\ P task /\
  forall j task', (j < k)%nat -> ts !! j = Some task' -> ~ P task'.

Definition taskA : Task := mkTask "A" 1 FnReturns.
Definition taskB : Task := mkTask "B" 1 FnReturns.
Definition taskC : Task := mkTask "C" 0 FnReturns.

Definition two_equal_tasks : world := newLocalRunner [taskA; taskB] false 10 "" 0.

(** What [spawnWorkers] leaves behind, relative to where it started:
    [t'] is what it appended to the trace. *)
Record spawn_effect (w : world) (res : result spawner) (t' : list event) : Prop := {
  effect_trace : trace (world_of res) = trace w ++ t';
  effect_numClients : forall c,
    numClients (rn w) = Go.int32 c ->
    numClients (rn (world_of res)) = Go.int32 (c + launched t')
}.

Definition callbacks (f : option callback) : list callback :=
  match f with
  | Some f => [f]
  | None => []
  end.

(** The world [startHatching] returns in: a fresh, open cancellation
    signal, the new rate, a zero worker count, the sinks started, and one
    more [spawnWorkers] goroutine, about to run on the new signal. *)
Definition hatching (spawnCount rate : Z) (f : option callback) (w : world) : world :=
  let r :=
    set_numClients 0
      (set_hatchRate rate (set_stopChan (ChanRef (length (chans w))) (rn w))) in
  mkWorld r (chans w ++ [false])
    (spawners w ++
       [mkSpawner spawnCount (ChanRef (length (chans w))) f
          (getWeightSum (tasks (rn w))) 0 SpawnLooping])
    (subscriptions w)
    ((trace w ++ [StatsClear]) ++ map OutputOnStart (outputs (rn w))).

Definition ten_users : world := newLocalRunner [taskA; taskB] false 10 "" 0.

Definition nothing_subscribed (topic : string) (w : world) : Prop :=
  Forall (fun sub => fst sub <> topic) (subscriptions w).

(** The cancellation signal of the current cycle is open. *)
Definition signal_open (c : chan) (w : world) : Prop :=
  exists id, c = ChanRef id /\ chans w !! id = Some false.

(** What [close] releases before it closes the signal. *)
Definition released_local (w : world) : list event :=
  if stats (rn w) then [StatsClose] else [].

Definition released_slave (w : world) : list event :=
  (if stats (rn w) then [StatsClose] else []) ++
  (if client (rn w) then [ClientClose] else []).

Definition agent0 : world := newSlaveRunner "node" [taskA; taskB] false "smooth".

(** [c] keeps [P]: from a world with [P], [c] stops, by return or by
    panic, in a world with [P]. *)
Definition keeps {A : Type} (P : world -> Prop) (c : M A) : Prop :=
  forall w, P w -> P (world_of (c w)).

(** The worker count of a payload as a signed [int]: it is accepted as a
    [uint64] and as an [int64]. *)
Definition signed_count (clients : value) : option Z :=
  match clients with
  | VUint64 u => Some (Go.int u)
  | VInt64 n => Some n
  | _ => None
  end.

(** The rate of a payload as a signed [int]: it is accepted as a [float64]
    only. *)
Definition signed_rate (rate : value) : option Z :=
  match rate with
  | VFloat64 f => Some (Go.int_of_float64 f)
  | _ => None
  end.

(** Lines 363 to 378: what [onHatchMessage] does with the two numbers. *)
Definition begin_hatch_cycle (workers hatchRate : Z) : M unit :=
  send "hatching" None;;
  Events_Publish "boomer:hatch" [workers; hatchRate];;
  w ← get;
  (if rateLimitEnabled (rn w) then emit RateLimiterStart else mret tt);;
  startHatching workers hatchRate (Some HatchComplete).

Definition hatch_msg (clients rate : value) : message :=
  newMessage "hatch"
    (Some (<["num_clients" := clients]> (<["hatch_rate" := rate]> ∅))) "master".

(** The agent after [run]: connected, ready, subscribed to the quit topic. *)
Definition agent_ready : world := world_of (slaveRunner_run false agent0).

(** A hatch payload is malformed when a numeric field is missing or of the
    wrong type: the rate is not there as a [float64], or the count is there
    neither as a [uint64] nor as an [int64]. *)
Definition malformed (msg : message) : Prop :=
  (map_index (Data msg) "hatch_rate" ≫= signed_rate) = None \/
  (map_index (Data msg) "num_clients" ≫= signed_count) = None.

(** The state is one in which the machine acts on a hatch message. *)
Definition hatchable (st : string) : Prop :=
  st = stateInit \/ st = stateHatching \/ st = stateRunning \/ st = stateStopped.

Definition quit_msg : message := newMessage "quit" None "master".
Definition stop_msg : message := newMessage "stop" None "master".

(** The agent with one user hatched and the ramp-up over. *)
Definition agent_running : world :=
  world_of (exec [Recv (hatch_msg (VInt64 1) (VFloat64 1)); Spawn 0; Spawn 0] agent_ready).

(** The agent with a sink registered, after [run]. *)
Definition agent_with_sink : world :=
  world_of ((addOutput 7;; slaveRunner_run false) agent0).

(** The event with the current worker count attached. *)
Definition with_user_count (w : world) (m : gmap string value) : payload :=
  Some (<["user_count" := VInt32 (numClients (rn w))]> m).

(** What [stop] appends for the rate limiter. *)
Definition limiter_stopped (w : world) : list event :=
  if rateLimitEnabled (rn w) then [RateLimiterStop] else [].

(** The agent with one user hatched, stopped by the controller while its
    spawner was between its last launch and its return. *)
Definition agent_stopped_late : world :=
  world_of (exec [Recv (hatch_msg (VInt64 1) (VFloat64 1)); Spawn 0; Recv stop_msg]
              agent_ready).

(** The sum of the weights, without wrap-around. *)
Definition total_weight (ts : list Task) : Z :=
  foldr (fun task acc => Weight task + acc) 0 ts.

(** The task's own weight divided by the sum of all the weights: the
    quotient, in binary64, of the two integers. *)
Definition own_fraction (ts : list Task) (task : Task) : float :=
  PrimFloat.div (Go.float64_of_int (Weight task))
    (Go.float64_of_int (total_weight ts)).

(** The task's own fraction is greater than or equal to the draw. *)
Definition fraction_reaches (ts : list Task) (draw : float) (task : Task) : Prop :=
  PrimFloat.leb draw (own_fraction ts task) = true.

(** Tasks of weight 2^62 each: two of them weigh 2^63 together, one more
    than the largest [int], and four of them 2^64. *)
Definition heavy (name : string) : Task := mkTask name (2 ^ 62) FnReturns.
Definition heavy_pair : list Task := [heavy "a"; heavy "b"].
Definition heavy_four : list Task := [heavy "a"; heavy "b"; heavy "c"; heavy "d"].




(** The errors written to the error stream, in order. *)
Definition errors (t : list event) : list string :=
  omap (fun e => match e with Stderr msg => Some msg | _ => None end) t.

(** What running the selected task leaves in the trace: its name, and its
    error when its body panics. *)
Definition names_run (selected : option Task) : list string :=
  match selected with
  | Some task => [Name task]
  | None => []
  end.

Definition errors_recovered (selected : option Task) : list string :=
  match selected with
  | Some task =>
      match Fn task with
      | FnPanics err => [err]
      | FnReturns => []
      end
  | None => []
  end.

(** A runner with no task registered, and one whose only task panics. *)
Definition no_tasks : world := newLocalRunner [] false 1 "" 0.

Definition panicking_task : world :=
  newLocalRunner [mkTask "bad" 1 (FnPanics "boom")] false 1 "" 0.

(** The pacing test of line 191. *)
Definition paced (w : world) : bool :=
  negb (hatchRate (rn w) =? 0) && String.eqb (hatchType (rn w)) "smooth".

(** The world after a spawner on [quit] has launched one more worker:
    the worker started, the count incremented, and the pause taken if
    the ramp-up is paced. *)
Definition launch (quit : chan) (w : world) : world :=
  let w1 :=
    with_rn (fun r => set_numClients (Go.int32 (numClients r + 1)) r)
      (with_trace (fun t => t ++ [GoWorker quit]) w) in
  if paced w1 then with_trace (fun t => t ++ [Sleep (hatchRate (rn w1))]) w1 else w1.

(** Lines 197 to 199: the call of the callback, if there is one. *)
Definition completion (f : option callback) : M unit :=
  match f with
  | Some f => emit (CallHatchCompleteFunc f);; call f
  | None => mret tt
  end.

(** The number of pauses taken between launches. *)
Definition sleeps (t : list event) : Z :=
  Z.of_nat (length (omap (fun e => match e with Sleep r => Some r | _ => None end) t)).

(** Two runners that differ in the worker count at most. *)
Definition same_but_count (r1 r2 : runner) : Prop :=
  set_numClients 0 r1 = set_numClients 0 r2.

(** Two runners that differ in the worker count and the state at most. *)
Definition same_but_count_state (r1 r2 : runner) : Prop :=
  set_state "" (set_numClients 0 r1) = set_state "" (set_numClients 0 r2).

(** The agent about to ramp up three users, paced at two per second. *)
Definition agent_hatching_three : world :=
  world_of (onMessage (hatch_msg (VInt64 3) (VFloat64 2)) agent_ready).

(** The three message types the state machine acts on in [hatching] and
    [running]. *)
Definition stops_cycle (type_ : string) : Prop :=
  type_ = "hatch" \/ type_ = "stop" \/ type_ = "quit".

(** The pairs of state and message type the state machine has no case
    for: a state outside the four it switches on, a type other than hatch,
    stop and quit, and a stop in [ready] or [stopped]. *)
Definition ignored (st type_ : string) : Prop :=
  ~ hatchable st \/
  (type_ <> "hatch" /\ type_ <> "stop" /\ type_ <> "quit") \/
  (type_ = "stop" /\ (st = stateInit \/ st = stateStopped)).

(** What the start of a hatch cycle appends for the rate limiter. *)
Definition limiter_started (w : world) : list event :=
  if rateLimitEnabled (rn w) then [RateLimiterStart] else [].

(** The world after [onHatchMessage] has acknowledged a hatch message and
    started its cycle. *)
Definition hatch_begun (workers rate : Z) (w : world) : world :=
  hatching workers rate (Some HatchComplete)
    (with_trace (fun t =>
       t ++ Send (newMessage "hatching" None (nodeID (rn w)))
         :: Publish "boomer:hatch" [workers; rate] :: limiter_started w) w).

(** The message [hatchComplete] sends. *)
Definition hatch_complete_msg (w : world) : message :=
  newMessage "hatch_complete" (Some {[ "count" := VInt32 (numClients (rn w)) ]})
    (nodeID (rn w)).

(** The world after [hatchComplete], called by a spawner, has returned. *)
Definition completed (w : world) : world :=
  with_rn (set_state stateRunning)
    (with_trace (fun t =>
       t ++ [CallHatchCompleteFunc HatchComplete; Send (hatch_complete_msg w)]) w).

(** The world [stop] returns in when it finds the signal [id] open and
    nothing subscribed to the stop topic. *)
Definition stopped_cycle (id : nat) (w : world) : world :=
  with_trace (fun t => t ++ limiter_stopped w)
    (with_chans (fun h => <[id := true]> h)
       (with_trace (fun t => t ++ [Publish "boomer:stop" []])
          (with_trace (fun t => t ++ map OutputOnStop (outputs (rn w))) w))).

(** The agent ramping up five users at one per second, two launched. *)
Definition agent_mid_rampup : world :=
  world_of (exec [Recv (hatch_msg (VInt64 5) (VFloat64 1)); Spawn 0; Spawn 0]
              agent_ready).

(** A local runner with a second sink, and a stats event that already
    carries a user count. *)
Definition local_two_sinks : world :=
  world_of (addOutput 7 (newLocalRunner [taskA] false 1 "" 0)).

Definition stale_event : gmap string value :=
  {[ "user_count" := VInt32 99; "num_requests" := VInt64 4 ]}.

(** What no action of a running agent changes: the task registry, the
    hatch type, the sinks, the node id, the collaborators and the lifecycle
    signal the runner was built and connected with, and the
    subscriptions. *)
Definition same_configuration (w w' : world) : Prop :=
  tasks (rn w') = tasks (rn w) /\
  hatchType (rn w') = hatchType (rn w) /\
  outputs (rn w') = outputs (rn w) /\
  nodeID (rn w') = nodeID (rn w) /\
  rateLimitEnabled (rn w') = rateLimitEnabled (rn w) /\
  stats (rn w') = stats (rn w) /\
  client (rn w') = client (rn w) /\
  closeChan (rn w') = closeChan (rn w) /\
  subscriptions w' = subscriptions w.

(** * Properties *)

(** ** Weighted selection *)

Lemma select_loop_list_find index weightSum ts :
  select_loop index weightSum ts None
  = snd <$> list_find (reaches index weightSum) ts.
Proof.
  induction ts as [|task rest IH]; [reflexivity|].
  cbn [select_loop list_find].
  destruct (decide (reaches index weightSum task)) as [Hle|Hle];
    unfold reaches in Hle.
  - rewrite Hle. reflexivity.
  - apply not_true_is_false in Hle. rewrite Hle, IH. destruct (list_find _ rest) as [[j x]|]; reflexivity.
Qed.

Lemma select_loop_Some index weightSum ts task :
  select_loop index weightSum ts None = Some task <->
  exists k, first_in_order (reaches index weightSum) ts k task.
Proof.
  rewrite select_loop_list_find. unfold first_in_order. split.
  - destruct (list_find _ ts) as [[k x]|] eqn:Hfind; [|discriminate].
    intros [= ->]. apply list_find_Some in Hfind as (Hk & HP & Hfirst).
    exists k. repeat split; [assumption..|].
    intros j task' Hj Hlook. exact (Hfirst j task' Hlook Hj).
  - intros (k & Hk & HP & Hfirst).
    assert (list_find (reaches index weightSum) ts = Some (k, task)) as ->;
      [|reflexivity].
    apply list_find_Some. repeat split; [assumption..|].
    intros j task' Hlook Hj. exact (Hfirst j task' Hj Hlook).
Qed.

Lemma select_loop_None index weightSum ts :
  select_loop index weightSum ts None = None <->
  forall task, task ∈ ts -> ~ reaches index weightSum task.
Proof.
  rewrite select_loop_list_find. split.
  - destruct (list_find _ ts) as [[k x]|] eqn:Hfind; [discriminate|].
    intros _. rewrite list_find_None in Hfind.
    intros task Hin. exact (proj1 (Forall_forall _ _) Hfind task Hin).
  - intros Hnone.
    assert (list_find (reaches index weightSum) ts = None) as ->; [|reflexivity].
    apply list_find_None, Forall_forall. exact Hnone.
Qed.

(** Comparison of binary64 values: [y < x] excludes [x <= y]. *)
Lemma float_ltb_not_leb (x y : float) :
  PrimFloat.ltb y x = true -> PrimFloat.leb x y = false.
Proof.
  rewrite FloatAxioms.ltb_spec, FloatAxioms.leb_spec. unfold SFltb, SFleb.
  destruct (Prim2SF x) as [sx| sx | |sx mx ex], (Prim2SF y) as [sy|sy| |sy my ey];
    cbn; try discriminate; try reflexivity;
    try (destruct sx; discriminate || reflexivity);
    try (destruct sy; discriminate || reflexivity);
    try (destruct sx, sy; discriminate || reflexivity).
  destruct sx, sy; try discriminate; try reflexivity;
    rewrite (Z.compare_antisym ex ey);
    destruct (ex ?= ey) eqn:He; cbn; try discriminate; try reflexivity;
    change (PosDef.Pos.compare_cont Eq my mx) with (Pos.compare my mx);
    change (PosDef.Pos.compare_cont Eq mx my) with (Pos.compare mx my);
    rewrite (Pos.compare_antisym mx my);
    destruct (mx ?= my)%positive; cbn; discriminate || reflexivity.
Qed.

(** Unfolding the runner monad. *)
Ltac unfold_M :=
  unfold mbind, M_bind, mret, M_ret, panic, get, emit, modify in *.

Ltac run_M := repeat (unfold_M; cbn in * ).

Lemma Int63n_in_range rnd n w :
  0 < n ->
  exists index, Int63n rnd n w = Done index w /\
    index = Int63 rnd mod n /\ 0 <= index < n.
Proof.
  intros Hn. exists (Int63 rnd mod n). unfold Int63n.
  destruct (n <=? 0) eqn:Hle; [lia|].
  split; [reflexivity|]. split; [reflexivity|]. apply Z.mod_pos_bound. lia.
Qed.

Lemma int_add_l (a b : Z) : Go.int (Go.int a + b) = Go.int (a + b).
Proof.
  unfold Go.int, Go.wrap. f_equal.
  replace ((a + 2 ^ (64 - 1)) mod 2 ^ 64 - 2 ^ (64 - 1) + b + 2 ^ (64 - 1))
    with ((a + 2 ^ (64 - 1)) mod 2 ^ 64 + b) by lia.
  rewrite Z.add_mod_idemp_l by lia. f_equal. lia.
Qed.

Lemma int_small (z : Z) : Go.min_int <= z <= Go.max_int -> Go.int z = z.
Proof.
  unfold Go.int, Go.wrap, Go.min_int, Go.max_int. intros H.
  rewrite Z.mod_small; lia.
Qed.

Lemma getWeightSum_from (ts : list Task) (a : Z) :
  fold_left (fun weightSum task => Go.int (weightSum + Weight task)) ts (Go.int a)
  = Go.int (a + total_weight ts).
Proof.
  revert a. induction ts as [|task rest IH]; intros a.
  - cbn [fold_left]. f_equal. unfold total_weight. cbn [foldr]. lia.
  - cbn [fold_left]. rewrite int_add_l, IH. f_equal.
    change (total_weight (task :: rest)) with (Weight task + total_weight rest).
    lia.
Qed.

Lemma total_weight_nonneg (ts : list Task) :
  Forall (fun task => 0 <= Weight task) ts -> 0 <= total_weight ts.
Proof.
  induction 1 as [|task rest Hw _ IH];
    [cbn; lia|].
  change (total_weight (task :: rest)) with (Weight task + total_weight rest).
  lia.
Qed.

Lemma total_weight_zero (ts : list Task) :
  Forall (fun task => 0 <= Weight task) ts ->
  (total_weight ts = 0 <-> Forall (fun task => Weight task = 0) ts).
Proof.
  induction 1 as [|task rest Hw Hrest IH].
  - split; [constructor | reflexivity].
  - change (total_weight (task :: rest)) with (Weight task + total_weight rest).
    pose proof (total_weight_nonneg rest Hrest) as Hpos. split.
    + intros Hsum. constructor; [lia|]. apply IH. lia.
    + intros Hall. apply Forall_cons in Hall as [Hz Hall].
      apply IH in Hall. lia.
Qed.

(** The sum the spawner computes is the sum of the weights as long as that
    sum fits an [int]. *)
Lemma getWeightSum_fits (ts : list Task) :
  Forall (fun task => 0 <= Weight task) ts ->
  total_weight ts <= Go.max_int ->
  getWeightSum ts = total_weight ts.
Proof.
  intros Hnonneg Hfits. unfold getWeightSum. change 0 with (Go.int 0) at 1.
  rewrite getWeightSum_from, Z.add_0_l. apply int_small.
  pose proof (total_weight_nonneg ts Hnonneg). unfold Go.min_int. lia.
Qed.

(** C3, as stated, fails where the sum of the weights does not fit an
    [int].  Two tasks of weight 2^62: the list is not empty, the weights
    are not negative, their sum 2^63 is not zero and the first task's own
    fraction, one half, is greater than the draw of one quarter; yet no task
    is selected, because the sum the code divides by has wrapped around to
    -2^63.  Four tasks of weight 2^62: their sum 2^64 is not zero, yet the
    task selected is the one at the index drawn (two different tasks for one
    and the same draw of [Float64]), because the sum the code tests has
    wrapped around to zero. *)
Lemma heavy_weights_selection :
  (heavy_pair <> [] /\
   Forall (fun task => 0 <= Weight task) heavy_pair /\
   total_weight heavy_pair <> 0 /\
   fraction_reaches heavy_pair 0.25 (heavy "a") /\
   select_task heavy_pair (getWeightSum heavy_pair) (mkRandom 0 0.25) no_tasks
   = Done None no_tasks)
  /\
  (heavy_four <> [] /\
   Forall (fun task => 0 <= Weight task) heavy_four /\
   total_weight heavy_four <> 0 /\
   select_task heavy_four (getWeightSum heavy_four) (mkRandom 2 0.25) no_tasks
   = Done (Some (heavy "c")) no_tasks /\
   select_task heavy_four (getWeightSum heavy_four) (mkRandom 3 0.25) no_tasks
   = Done (Some (heavy "d")) no_tasks).
Proof.
  split.
  - split; [discriminate|]. split; [repeat constructor; discriminate|].
    split; [vm_compute; discriminate|]. split; vm_compute; reflexivity.
  - split; [discriminate|]. split; [repeat constructor; discriminate|].
    split; [vm_compute; discriminate|]. split; vm_compute; reflexivity.
Qed.

(** C3, amended.  For every non-empty task list with non-negative weights
    whose sum fits an [int] (it is at most 2^63 - 1), one selection event
    behaves as follows.  If the sum of the weights is zero, the selected
    task is the one at the index the random source draws in [0, len).
    Otherwise the one draw of [Float64] is compared, in registration order,
    with each task's own weight divided by the sum of all the weights (no
    running sum is kept), and the selected task is the first one whose
    fraction is greater than or equal to the draw; no task is selected when
    no fraction is. *)
Theorem select_task_by_own_fraction (ts : list Task) (rnd : random) (w : world) :
  ts <> [] ->
  Forall (fun task => 0 <= Weight task) ts ->
  total_weight ts <= Go.max_int ->
  (total_weight ts = 0 ->
     exists (k : nat) (task : Task),
       (k < length ts)%nat /\
       Z.of_nat k = Int63 rnd mod Z.of_nat (length ts) /\
       ts !! k = Some task /\
       select_task ts (getWeightSum ts) rnd w = Done (Some task) w)
  /\
  (total_weight ts <> 0 ->
     exists selected : option Task,
       select_task ts (getWeightSum ts) rnd w = Done selected w /\
       (forall task,
          selected = Some task <->
          exists k, first_in_order (fraction_reaches ts (Float64 rnd)) ts k task) /\
       (selected = None <->
        forall task, task ∈ ts -> ~ fraction_reaches ts (Float64 rnd) task)).
Proof.
  intros Hne Hnonneg Hfits.
  rewrite (getWeightSum_fits ts Hnonneg Hfits). split.
  - intros Hsum. unfold select_task. rewrite Hsum. cbn [Z.eqb].
    assert (0 < Z.of_nat (length ts)) as Hlen by (destruct ts; [done | cbn; lia]).
    destruct (Int63n_in_range rnd _ w Hlen) as (index & Hdraw & Hidx & Hrange).
    assert (Z.to_nat index < length ts)%nat as Hlt by lia.
    destruct (lookup_lt_is_Some_2 ts _ Hlt) as [task Htask].
    exists (Z.to_nat index), task.
    repeat split; [exact Hlt | lia | exact Htask |].
    unfold mbind, M_bind. rewrite Hdraw, Htask. reflexivity.
  - intros Hsum. unfold select_task.
    destruct (total_weight ts =? 0) eqn:Hz; [lia|].
    eexists. split; [reflexivity|]. split.
    + intros task. exact (select_loop_Some (Float64 rnd) (total_weight ts) ts task).
    + exact (select_loop_None (Float64 rnd) (total_weight ts) ts).
Qed.

Lemma select_task_by_own_fraction_witness :
  [taskA; taskB] <> [] /\
  Forall (fun task => 0 <= Weight task) [taskA; taskB] /\
  total_weight [taskA; taskB] <= Go.max_int /\
  ((total_weight [taskA; taskB] = 0 ->
     exists (k : nat) (task : Task),
       (k < length [taskA; taskB])%nat /\
       Z.of_nat k = Int63 (mkRandom 7 0.25) mod Z.of_nat (length [taskA; taskB]) /\
       [taskA; taskB] !! k = Some task /\
       select_task [taskA; taskB] (getWeightSum [taskA; taskB]) (mkRandom 7 0.25)
         two_equal_tasks
       = Done (Some task) two_equal_tasks)
   /\
   (total_weight [taskA; taskB] <> 0 ->
     exists selected : option Task,
       select_task [taskA; taskB] (getWeightSum [taskA; taskB]) (mkRandom 7 0.25)
         two_equal_tasks
       = Done selected two_equal_tasks /\
       (forall task,
          selected = Some task <->
          exists k, first_in_order
            (fraction_reaches [taskA; taskB] (Float64 (mkRandom 7 0.25)))
            [taskA; taskB] k task) /\
       (selected = None <->
        forall task, task ∈ [taskA; taskB] ->
          ~ fraction_reaches [taskA; taskB] (Float64 (mkRandom 7 0.25)) task))).
Proof.
  split; [discriminate|]. split; [repeat constructor; cbn; lia|].
  split; [vm_compute; discriminate|].
  apply (select_task_by_own_fraction [taskA; taskB] (mkRandom 7 0.25) two_equal_tasks).
  - discriminate.
  - repeat constructor; cbn; lia.
  - vm_compute. discriminate.
Defined.

(** A zero weight sum: the task at the drawn index is selected. *)
Example select_task_zero_sum :
  select_task [taskC; taskC; taskB; mkTask "D" (-1) FnReturns] 0 (mkRandom 6 0.25)
    (newLocalRunner [] false 1 "" 0)
  = Done (Some taskB) (newLocalRunner [] false 1 "" 0).
Proof. vm_compute. reflexivity. Qed.

(** The comparison is with each task's own share: with weights 1, 1 the
    shares are one half each, and a draw of one quarter selects the first
    task. *)
Example select_task_first :
  select_task [taskA; taskB] 2 (mkRandom 0 0.25) (newLocalRunner [] false 1 "" 0)
  = Done (Some taskA) (newLocalRunner [] false 1 "" 0).
Proof. vm_compute. reflexivity. Qed.

(** C10. When the weight sum is positive and the draw exceeds every task's
    own weight/sum fraction, the selection event selects no task, and the
    turn of the worker's loop runs no task and goes on to the next turn. *)
Theorem selection_can_select_nothing (rnd : random) (w : world) :
  0 < getWeightSum (tasks (rn w)) ->
  (forall task, task ∈ tasks (rn w) ->
     PrimFloat.ltb (percent (getWeightSum (tasks (rn w))) task) (Float64 rnd) = true) ->
  select_task (tasks (rn w)) (getWeightSum (tasks (rn w))) rnd w = Done None w /\
  forall blocked : bool,
    exists w',
      worker_iter false blocked (getWeightSum (tasks (rn w))) rnd w
      = Done WorkerContinue w' /\
      rn w' = rn w /\ ran (trace w') = ran (trace w).
Proof.
  intros Hsum Hexceeds.
  assert (select_task (tasks (rn w)) (getWeightSum (tasks (rn w))) rnd
          = fun w0 => Done None w0) as Hsel.
  { unfold select_task. destruct (getWeightSum (tasks (rn w)) =? 0) eqn:Hz; [lia|].
    assert (select_loop (Float64 rnd) (getWeightSum (tasks (rn w))) (tasks (rn w)) None
            = None) as ->; [|reflexivity].
    apply select_loop_None. intros task Hin Hreach. unfold reaches in Hreach.
    rewrite (float_ltb_not_leb _ _ (Hexceeds task Hin)) in Hreach. discriminate. }
  split; [rewrite Hsel; reflexivity|].
  intros blocked. unfold worker_iter. unfold mbind at 1, M_bind at 1, get at 1.
  destruct (rateLimitEnabled (rn w)) eqn:Hrl.
  - destruct blocked; run_M.
    + eexists. split; [reflexivity|]. split; [reflexivity|].
      cbn. unfold ran. rewrite omap_app. cbn. apply app_nil_r.
    + rewrite Hsel. eexists. split; [reflexivity|]. split; [reflexivity|].
      cbn. unfold ran. rewrite omap_app. cbn. apply app_nil_r.
  - run_M. rewrite Hsel. exists w. repeat split.
Qed.

Lemma selection_can_select_nothing_witness :
  0 < getWeightSum (tasks (rn two_equal_tasks)) /\
  (forall task, task ∈ tasks (rn two_equal_tasks) ->
     PrimFloat.ltb (percent (getWeightSum (tasks (rn two_equal_tasks))) task)
       (Float64 (mkRandom 0 0.75)) = true) /\
  select_task (tasks (rn two_equal_tasks)) (getWeightSum (tasks (rn two_equal_tasks)))
    (mkRandom 0 0.75) two_equal_tasks = Done None two_equal_tasks /\
  forall blocked : bool,
    exists w',
      worker_iter false blocked (getWeightSum (tasks (rn two_equal_tasks)))
        (mkRandom 0 0.75) two_equal_tasks
      = Done WorkerContinue w' /\
      rn w' = rn two_equal_tasks /\ ran (trace w') = ran (trace two_equal_tasks).
Proof.
  assert (forall task, task ∈ tasks (rn two_equal_tasks) ->
     PrimFloat.ltb (percent (getWeightSum (tasks (rn two_equal_tasks))) task)
       (Float64 (mkRandom 0 0.75)) = true) as Hexceeds.
  { intros task Hin. cbn in Hin.
    apply elem_of_cons in Hin as [->|Hin]; [vm_compute; reflexivity|].
    apply elem_of_cons in Hin as [->|Hin]; [vm_compute; reflexivity|].
    inversion Hin. }
  split; [vm_compute; reflexivity|]. split; [exact Hexceeds|].
  apply (selection_can_select_nothing (mkRandom 0 0.75) two_equal_tasks);
    [vm_compute; reflexivity | exact Hexceeds].
Defined.

(** ** The spawner *)

Lemma int32_succ (c : Z) : Go.int32 (Go.int32 c + 1) = Go.int32 (c + 1).
Proof.
  unfold Go.int32, Go.wrap. f_equal.
  replace ((c + 2 ^ (32 - 1)) mod 2 ^ 32 - 2 ^ (32 - 1) + 1 + 2 ^ (32 - 1))
    with ((c + 2 ^ (32 - 1)) mod 2 ^ 32 + 1) by lia.
  rewrite Z.add_mod_idemp_l by lia. f_equal. lia.
Qed.

Lemma int32_small (c : Z) : - 2 ^ 31 <= c <= Go.max_int32 -> Go.int32 c = c.
Proof.
  unfold Go.int32, Go.wrap, Go.max_int32. intros H.
  rewrite Z.mod_small; lia.
Qed.

Lemma launched_app (t1 t2 : list event) :
  launched (t1 ++ t2) = launched t1 + launched t2.
Proof. unfold launched, workers_of. rewrite omap_app, length_app. lia. Qed.

Lemma fired_app (t1 t2 : list event) : fired (t1 ++ t2) = fired t1 ++ fired t2.
Proof. unfold fired. apply omap_app. Qed.

Lemma sent_app (t1 t2 : list event) : sent (t1 ++ t2) = sent t1 ++ sent t2.
Proof. unfold sent. apply omap_app. Qed.

(** A turn of the loop that finds [quit] closed. *)
Lemma spawnWorkers_iter_abort s w :
  sp_i s < sp_spawnCount s ->
  spawnWorkers_iter true s w = Done (set_pc SpawnAborted s) w.
Proof.
  intros Hlt. unfold spawnWorkers_iter.
  destruct (sp_i s <? sp_spawnCount s) eqn:H; [reflexivity | lia].
Qed.

(** A turn of the loop that finds [quit] open: one worker, one increment. *)
Lemma spawnWorkers_iter_launch s w :
  sp_i s < sp_spawnCount s ->
  exists w' t1,
    spawnWorkers_iter false s w = Done (set_i (sp_i s + 1) s) w' /\
    trace w' = trace w ++ t1 /\ launched t1 = 1 /\ fired t1 = [] /\
    numClients (rn w') = Go.int32 (numClients (rn w) + 1).
Proof.
  intros Hlt. unfold spawnWorkers_iter.
  destruct (sp_i s <? sp_spawnCount s) eqn:H; [|lia].
  run_M.
  destruct (negb (hatchRate (rn w) =? 0) && String.eqb (hatchType (rn w)) "smooth");
    cbn; eexists _, _; (split; [reflexivity|]); cbn.
  - rewrite <- app_assoc. repeat split; reflexivity.
  - repeat split; reflexivity.
Qed.

(** The end of the function, once the loop test fails. *)
Lemma spawnWorkers_iter_finish quit_closed s w :
  sp_spawnCount s <= sp_i s ->
  exists t1,
    trace (world_of (spawnWorkers_iter quit_closed s w)) = trace w ++ t1 /\
    launched t1 = 0 /\ fired t1 = callbacks (sp_hatchCompleteFunc s) /\
    numClients (rn (world_of (spawnWorkers_iter quit_closed s w))) = numClients (rn w) /\
    (forall s' w', spawnWorkers_iter quit_closed s w = Done s' w' ->
       s' = set_pc SpawnReturned s).
Proof.
  intros Hge. unfold spawnWorkers_iter.
  destruct (sp_i s <? sp_spawnCount s) eqn:H; [lia|].
  destruct (sp_hatchCompleteFunc s) as [[]|]; run_M.
  - unfold hatchComplete, send. run_M.
    destruct (client (rn w)); cbn.
    + eexists. rewrite <- app_assoc. repeat split; try reflexivity.
      intros s' w' [= <- _]. reflexivity.
    + eexists. repeat split; try reflexivity. intros s' w' [=].
  - exists []. rewrite app_nil_r. repeat split; try reflexivity.
    intros s' w' [= <- _]. reflexivity.
Qed.

Lemma spawnWorkers_loop_unfold fuel observe s w :
  sp_pc s = SpawnLooping ->
  spawnWorkers_loop (S fuel) observe s w =
  match spawnWorkers_iter (observe (sp_i s)) s w with
  | Done s' w' => spawnWorkers_loop fuel observe s' w'
  | Panicked why w' => Panicked why w'
  end.
Proof. intros Hpc. cbn [spawnWorkers_loop]. rewrite Hpc. reflexivity. Qed.

Lemma spawnWorkers_loop_stopped fuel observe s w :
  sp_pc s <> SpawnLooping -> spawnWorkers_loop fuel observe s w = Done s w.
Proof.
  intros Hpc. destruct fuel; cbn [spawnWorkers_loop]; destruct (sp_pc s); done.
Qed.

Lemma spawn_effect_nil w s : spawn_effect w (Done s w) [].
Proof.
  split; cbn; [symmetry; apply app_nil_r|].
  intros c ->. f_equal. unfold launched. cbn. lia.
Qed.

Lemma set_i_same s : set_i (sp_i s) s = s.
Proof. destruct s; reflexivity. Qed.

(** The loop of [spawnWorkers], from any counter value on.  With enough
    fuel for the turns that are left: if [quit] is found open at every
    remaining test, the remaining workers are all launched and the callback
    is called; if [quit] is first found closed when the counter is [j], the
    workers up to [j] are launched and the function returns without
    calling the callback. *)
Lemma spawnWorkers_loop_spec (observe : Z -> bool) :
  forall (fuel : nat) (s : spawner) (w : world),
    sp_pc s = SpawnLooping ->
    (Z.to_nat (sp_spawnCount s - sp_i s) < fuel)%nat ->
    exists t',
      spawn_effect w (spawnWorkers_loop fuel observe s w) t' /\
      ((forall j, sp_i s <= j < sp_spawnCount s -> observe j = false) ->
         launched t' = Z.max 0 (sp_spawnCount s - sp_i s) /\
         fired t' = callbacks (sp_hatchCompleteFunc s) /\
         forall s' w', spawnWorkers_loop fuel observe s w = Done s' w' ->
           sp_pc s' = SpawnReturned) /\
      (forall j, sp_i s <= j < sp_spawnCount s -> observe j = true ->
         (forall j', sp_i s <= j' < j -> observe j' = false) ->
         launched t' = j - sp_i s /\ fired t' = [] /\
         exists w', spawnWorkers_loop fuel observe s w
                    = Done (set_pc SpawnAborted (set_i j s)) w').
Proof.
  induction fuel as [|fuel IH]; intros s w Hpc Hfuel; [lia|].
  rewrite (spawnWorkers_loop_unfold _ _ _ _ Hpc).
  destruct (Z_lt_le_dec (sp_i s) (sp_spawnCount s)) as [Hlt|Hge].
  - destruct (observe (sp_i s)) eqn:Hobs.
    + (* the quit case *)
      rewrite (spawnWorkers_iter_abort _ _ Hlt).
      rewrite spawnWorkers_loop_stopped by (destruct s; discriminate).
      exists []. split; [apply spawn_effect_nil|]. split.
      * intros Hopen. rewrite (Hopen (sp_i s)) in Hobs by lia. discriminate.
      * intros j Hj Hclosed Hfirst.
        assert (j = sp_i s) as ->.
        { destruct (Z.eq_dec j (sp_i s)) as [|Hne]; [assumption|].
          rewrite (Hfirst (sp_i s)) in Hobs by lia. discriminate. }
        rewrite set_i_same. split; [unfold launched; cbn; lia|].
        split; [reflexivity|]. eexists; reflexivity.
    + (* a worker is launched *)
      destruct (spawnWorkers_iter_launch s w Hlt)
        as (w1 & t1 & -> & Htrace1 & Hlaunched1 & Hfired1 & Hnum1).
      destruct (IH (set_i (sp_i s + 1) s) w1) as (t2 & [Htrace2 Hnum2] & Hall & Hsome).
      { destruct s; exact Hpc. }
      { destruct s; cbn in *. lia. }
      replace (sp_spawnCount (set_i (sp_i s + 1) s)) with (sp_spawnCount s)
        in * by (destruct s; reflexivity).
      replace (sp_i (set_i (sp_i s + 1) s)) with (sp_i s + 1)
        in * by (destruct s; reflexivity).
      replace (sp_hatchCompleteFunc (set_i (sp_i s + 1) s))
        with (sp_hatchCompleteFunc s) in * by (destruct s; reflexivity).
      exists (t1 ++ t2). split; [split|split].
      * rewrite Htrace2, Htrace1. symmetry. apply app_assoc.
      * intros c Hc. rewrite launched_app, Hlaunched1.
        rewrite (Hnum2 (c + 1)); [f_equal; lia|].
        rewrite Hnum1, Hc. apply int32_succ.
      * intros Hopen.
        destruct Hall as (Hl & Hf & Hret); [intros j Hj; apply Hopen; lia|].
        rewrite launched_app, fired_app, Hlaunched1, Hfired1, Hl, Hf.
        split; [lia|]. split; [reflexivity | exact Hret].
      * intros j Hj Hclosed Hfirst.
        assert (j <> sp_i s) as Hne by (intros ->; congruence).
        destruct (Hsome j) as (Hl & Hf & w' & Hres);
          [lia | assumption | intros j' Hj'; apply Hfirst; lia |].
        rewrite launched_app, fired_app, Hlaunched1, Hfired1, Hl, Hf.
        split; [lia|]. split; [reflexivity|].
        exists w'. rewrite Hres. destruct s; reflexivity.
  - (* the loop test fails: the end of the function *)
    destruct (spawnWorkers_iter_finish (observe (sp_i s)) s w Hge)
      as (t1 & Htrace & Hlaunched & Hfired & Hnum & Hdone).
    assert (match spawnWorkers_iter (observe (sp_i s)) s w with
            | Done s' w' => spawnWorkers_loop fuel observe s' w'
            | Panicked why w' => Panicked why w'
            end = spawnWorkers_iter (observe (sp_i s)) s w) as Heq.
    { destruct (spawnWorkers_iter (observe (sp_i s)) s w) as [s' w'|] eqn:E;
        [|reflexivity].
      apply spawnWorkers_loop_stopped. rewrite (Hdone s' w' eq_refl).
      destruct s; discriminate. }
    rewrite Heq. exists t1. split; [split|split].
    + exact Htrace.
    + intros c Hc. rewrite Hnum, Hlaunched, Hc. f_equal. lia.
    + intros _. rewrite Hlaunched, Hfired. split; [lia|]. split; [reflexivity|].
      intros s' w' E. rewrite (Hdone s' w' E). destruct s; reflexivity.
    + intros j Hj. lia.
Qed.

(** Over the tests of one ramp-up, either [quit] is found open every time
    or there is a first test that finds it closed. *)
Lemma first_closed (observe : Z -> bool) (N : Z) :
  (forall j, 0 <= j < N -> observe j = false) \/
  (exists j, 0 <= j < N /\ observe j = true /\
     forall j', 0 <= j' < j -> observe j' = false).
Proof.
  destruct (Z_lt_le_dec N 0) as [Hneg|Hpos]; [left; intros j Hj; lia|].
  apply (natlike_ind (fun n =>
    (forall j, 0 <= j < n -> observe j = false) \/
    (exists j, 0 <= j < n /\ observe j = true /\
       forall j', 0 <= j' < j -> observe j' = false))); [| |exact Hpos].
  - left. intros j Hj. lia.
  - intros n Hn [Hopen|(j & Hj & Hclosed & Hfirst)].
    + destruct (observe n) eqn:Hobs.
      * right. exists n. split; [lia|]. split; [assumption|].
        intros j' Hj'. apply Hopen. lia.
      * left. intros j Hj. destruct (Z.eq_dec j n) as [->|Hne]; [assumption|].
        apply Hopen. lia.
    + right. exists j. split; [lia|]. split; assumption.
Qed.

(** C8. For every spawn invocation with target count [N] and a callback:
    the callback is called if and only if no test of the ramp-up finds the
    cancellation signal set, and then all [N] workers have been launched;
    if some test finds the signal set, the callback is never called and
    only the workers before that test are launched. *)
Theorem rampup_callback_iff (observe : Z -> bool) (N : Z) (quit : chan)
    (f : callback) (w : world) :
  exists t',
    trace (world_of (spawnWorkers observe N quit (Some f) w)) = trace w ++ t' /\
    (fired t' = [f] <-> forall j, 0 <= j < N -> observe j = false) /\
    (fired t' = [f] -> launched t' = Z.max 0 N) /\
    (forall j, 0 <= j < N -> observe j = true ->
       (forall j', 0 <= j' < j -> observe j' = false) ->
       fired t' = [] /\ launched t' = j) /\
    ((exists j, 0 <= j < N /\ observe j = true) ->
       fired t' = [] /\ launched t' < N).
Proof.
  unfold spawnWorkers. unfold mbind, M_bind, get.
  destruct (spawnWorkers_loop_spec observe (S (Z.to_nat N))
              (spawnWorkers_entry N quit (Some f) w) w)
    as (t' & [Htrace _] & Hall & Hsome); [reflexivity | cbn; lia |].
  cbn [spawnWorkers_entry sp_i sp_spawnCount sp_hatchCompleteFunc callbacks] in *.
  exists t'. split; [exact Htrace|].
  assert (forall j, 0 <= j < N -> observe j = true ->
            (forall j', 0 <= j' < j -> observe j' = false) ->
            fired t' = [] /\ launched t' = j) as Hfirst.
  { intros j Hj Hclosed Hbefore.
    destruct (Hsome j Hj Hclosed Hbefore) as (Hl & Hf & _).
    split; [exact Hf | lia]. }
  assert ((exists j, 0 <= j < N /\ observe j = true) ->
          fired t' = [] /\ launched t' < N) as Hany.
  { intros (j & Hj & Hclosed).
    destruct (first_closed observe N) as [Hopen|(j0 & Hj0 & Hc0 & Hb0)].
    - rewrite (Hopen j Hj) in Hclosed. discriminate.
    - destruct (Hfirst j0 Hj0 Hc0 Hb0) as [Hf Hl]. split; [exact Hf | lia]. }
  split; [split|split; [|split; [exact Hfirst | exact Hany]]].
  - intros Hfired j Hj. destruct (observe j) eqn:Hobs; [|reflexivity].
    destruct Hany as [Hf _]; [exists j; split; assumption|].
    rewrite Hf in Hfired. discriminate.
  - intros Hopen. destruct (Hall Hopen) as (_ & Hf & _). exact Hf.
  - intros Hfired.
    destruct (first_closed observe N) as [Hopen|(j0 & Hj0 & Hc0 & Hb0)].
    + destruct (Hall Hopen) as (Hl & _). rewrite Hl. f_equal. lia.
    + destruct (Hfirst j0 Hj0 Hc0 Hb0) as [Hf _].
      rewrite Hf in Hfired. discriminate.
Qed.

(** ** Hatch, stop, close *)

Lemma with_trace_nil w : with_trace (fun t => t ++ []) w = w.
Proof. destruct w. unfold with_trace. cbn. rewrite app_nil_r. reflexivity. Qed.

(** A fan-out appends one call per sink. *)
Lemma for_range_emit {A : Type} (g : A -> event) (l : list A) (w : world) :
  for_range l (fun x => emit (g x)) w
  = Done tt (with_trace (fun t => t ++ map g l) w).
Proof.
  revert w. induction l as [|x l IH]; intros w; cbn.
  - unfold mret, M_ret. rewrite with_trace_nil. reflexivity.
  - unfold mbind, M_bind, emit, modify. rewrite IH.
    unfold with_trace. cbn. rewrite <- app_assoc. reflexivity.
Qed.

Lemma startHatching_spec spawnCount rate f w :
  stats (rn w) = true ->
  startHatching spawnCount rate f w = Done tt (hatching spawnCount rate f w).
Proof.
  intros Hstats. unfold startHatching, outputOnStart, go_spawnWorkers, make_chan.
  unfold mbind, M_bind, get. rewrite Hstats. cbn -[for_range].
  rewrite for_range_emit. reflexivity.
Qed.

Lemma startHatching_no_stats spawnCount rate f w :
  stats (rn w) = false ->
  startHatching spawnCount rate f w = Panicked nil_dereference w.
Proof.
  intros Hstats. unfold startHatching. run_M. rewrite Hstats. reflexivity.
Qed.



(** The pass in two steps is the pass in one when nothing runs in
    between. *)
Lemma preempted_pass_alone (tid : nat) (w : world) :
  preempted_pass tid (mret tt) w = spawner_step tid w.
Proof.
  unfold preempted_pass.
  assert (forall w0, (spawner_step tid;; mret tt) w0 = spawner_step tid w0) as Hunit.
  { intros w0. unfold mbind at 1, M_bind at 1.
    destruct (spawner_step tid w0) as [[] w'|why w']; reflexivity. }
  unfold mbind at 1, M_bind at 1, get at 1.
  destruct (spawners w !! tid) as [s|] eqn:Hs.
  - destruct (sp_pc s) eqn:Hpc.
    + destruct (sp_i s <? sp_spawnCount s) eqn:Hi; cbn [andb];
        [destruct (is_closed (sp_quit s) w) eqn:Hq; cbn [negb]|];
        try apply Hunit.
      unfold spawner_step. unfold spawnWorkers_go, spawnWorkers_count, spawnWorkers_iter.
      unfold mbind, M_bind, get, emit, modify, mret, M_ret. cbv beta.
      rewrite Hs, Hpc, Hq, Hi. reflexivity.
    + unfold spawner_step, mbind, M_bind, get. rewrite Hs, Hpc. reflexivity.
    + unfold spawner_step, mbind, M_bind, get. rewrite Hs, Hpc. reflexivity.
  - unfold spawner_step, mbind, M_bind, get. rewrite Hs. reflexivity.
Qed.


(** The scenario of the spec: tasks A and B of weight 1, ten users, rate 0.
    The ten workers are launched back to back (no [Sleep] in the trace) and
    the count reaches ten. *)
Example ten_users_hatched :
  let res := (localRunner_run;;
              w ← get; spawnWorkers (fun _ => false) 10 (stopChan (rn w)) None) ten_users in
  numClients (rn (world_of res)) = 10 /\
  trace (world_of res)
  = [StatsStart; StatsClear; OutputOnStart 0] ++ replicate 10 (GoWorker (ChanRef 1)).
Proof. vm_compute. split; reflexivity. Qed.

(** A ramp-up of three cut short: the signal is found set at the third
    test, two workers run, and the callback is not called. *)
Example rampup_cut_short :
  let res := spawnWorkers (fun j => 2 <=? j) 3 (ChanRef 1) (Some HatchComplete)
               (hatching 3 0 (Some HatchComplete) ten_users) in
  fired (trace (world_of res)) = [] /\ launched (trace (world_of res)) = 2 /\
  numClients (rn (world_of res)) = 2 /\
  exists s w', res = Done s w' /\ sp_pc s = SpawnAborted.
Proof. vm_compute. repeat split. eexists _, _. split; reflexivity. Qed.

(** Publishing on a topic nobody subscribed to only leaves its mark in the
    trace. *)
Lemma Events_Publish_nothing_subscribed topic args w :
  nothing_subscribed topic w ->
  Events_Publish topic args w
  = Done tt (with_trace (fun t => t ++ [Publish topic args]) w).
Proof.
  unfold nothing_subscribed, Events_Publish. unfold mbind, M_bind, emit, modify, get.
  cbn [subscriptions with_trace].
  generalize (with_trace (fun t => t ++ [Publish topic args]) w).
  induction (subscriptions w) as [|sub subs IH]; intros w0 Hnone; [reflexivity|].
  apply Forall_cons in Hnone as [Hsub Hnone]. cbn [for_range].
  apply String.eqb_neq in Hsub. rewrite Hsub.
  unfold mbind, M_bind, mret, M_ret. apply IH. exact Hnone.
Qed.

Lemma close_chan_open c w :
  signal_open c w ->
  exists id, c = ChanRef id /\
    close_chan c w = Done tt (with_chans (fun h => <[id := true]> h) w).
Proof.
  intros (id & -> & Hopen). exists id. split; [reflexivity|].
  unfold close_chan. rewrite Hopen. reflexivity.
Qed.

Lemma close_chan_closed c w :
  is_closed c w = true -> close_chan c w = Panicked "close of closed channel" w.
Proof.
  unfold is_closed, close_chan. destruct c as [|id]; [discriminate|].
  destruct (chans w !! id) as [[]|]; cbn; [reflexivity | discriminate..].
Qed.

Lemma is_closed_after_close id w :
  chans w !! id = Some false ->
  is_closed (ChanRef id) (with_chans (fun h => <[id := true]> h) w) = true.
Proof.
  intros Hopen. unfold is_closed. cbn.
  rewrite list_lookup_insert_eq; [reflexivity|].
  apply lookup_lt_is_Some_1. eauto.
Qed.

(** *** close *)

Lemma localRunner_close_open w :
  signal_open (closeChan (rn w)) w ->
  exists w1,
    localRunner_close w = Done tt w1 /\
    rn w1 = rn w /\
    trace w1 = trace w ++ released_local w /\
    is_closed (closeChan (rn w1)) w1 = true.
Proof.
  intros (id & Hc & Hopen). unfold localRunner_close, released_local.
  unfold mbind, M_bind, get. rewrite Hc.
  destruct (stats (rn w)); cbn; rewrite Hopen; eexists;
    (split; [reflexivity|]); cbn; rewrite Hc;
    (split; [reflexivity|]); cbn.
  - split; [reflexivity|]. apply (is_closed_after_close id w Hopen).
  - split; [symmetry; apply app_nil_r|]. apply (is_closed_after_close id w Hopen).
Qed.

Lemma slaveRunner_close_open w :
  signal_open (closeChan (rn w)) w ->
  exists w1,
    slaveRunner_close w = Done tt w1 /\
    rn w1 = rn w /\
    trace w1 = trace w ++ released_slave w /\
    is_closed (closeChan (rn w1)) w1 = true.
Proof.
  intros (id & Hc & Hopen). unfold slaveRunner_close, released_slave.
  unfold mbind, M_bind, get. rewrite Hc.
  destruct (stats (rn w)), (client (rn w)); cbn; rewrite Hopen; eexists;
    (split; [reflexivity|]); cbn; rewrite Hc;
    (split; [reflexivity|]); cbn;
    (split; [|apply (is_closed_after_close id w Hopen)]).
  - rewrite <- app_assoc. reflexivity.
  - reflexivity.
  - reflexivity.
  - symmetry. apply app_nil_r.
Qed.

Lemma localRunner_close_closed w :
  is_closed (closeChan (rn w)) w = true -> panicked (localRunner_close w) = true.
Proof.
  intros Hclosed. unfold localRunner_close. unfold mbind, M_bind, get.
  destruct (stats (rn w)); cbn.
  - rewrite close_chan_closed; [reflexivity|].
    destruct (closeChan (rn w)); exact Hclosed.
  - rewrite close_chan_closed; [reflexivity | exact Hclosed].
Qed.

Lemma slaveRunner_close_closed w :
  is_closed (closeChan (rn w)) w = true -> panicked (slaveRunner_close w) = true.
Proof.
  intros Hclosed. unfold slaveRunner_close. unfold mbind, M_bind, get.
  destruct (stats (rn w)), (client (rn w)); cbn;
    (rewrite close_chan_closed; [reflexivity|]);
    destruct (closeChan (rn w)); exact Hclosed.
Qed.

(** C2, as it stands, fails: in either mode the second of two [close]
    calls in succession panics, on closing the closed lifecycle signal. *)
Lemma close_twice_faults :
  (exists w1,
     localRunner_close (newLocalRunner [taskA; taskB] false 10 "" 0) = Done tt w1 /\
     localRunner_close w1
     = Panicked "close of closed channel" (with_trace (fun t => t ++ [StatsClose]) w1))
  /\
  (exists w1,
     slaveRunner_close (newSlaveRunner "node" [taskA; taskB] false "") = Done tt w1 /\
     slaveRunner_close w1
     = Panicked "close of closed channel" (with_trace (fun t => t ++ [StatsClose]) w1)).
Proof. split; eexists; split; reflexivity. Qed.

(** C2, amended. For every runner, local or agent, whose outer lifecycle
    signal is open, [close] releases the stats collaborator (and, for the
    agent, the transport client), closes the signal and returns.  Nothing
    guards against closing again: a second [close] in succession panics. *)
Theorem close_once_then_faults (w : world) :
  signal_open (closeChan (rn w)) w ->
  (exists w1,
     localRunner_close w = Done tt w1 /\
     trace w1 = trace w ++ released_local w /\
     is_closed (closeChan (rn w1)) w1 = true /\
     panicked (localRunner_close w1) = true)
  /\
  (exists w1,
     slaveRunner_close w = Done tt w1 /\
     trace w1 = trace w ++ released_slave w /\
     is_closed (closeChan (rn w1)) w1 = true /\
     panicked (slaveRunner_close w1) = true).
Proof.
  intros Hopen. split.
  - destruct (localRunner_close_open w Hopen) as (w1 & Hrun & _ & Htrace & Hclosed).
    exists w1. repeat split; try assumption.
    apply localRunner_close_closed. exact Hclosed.
  - destruct (slaveRunner_close_open w Hopen) as (w1 & Hrun & _ & Htrace & Hclosed).
    exists w1. repeat split; try assumption.
    apply slaveRunner_close_closed. exact Hclosed.
Qed.

Lemma close_once_then_faults_witness :
  signal_open (closeChan (rn agent0)) agent0 /\
  (exists w1,
     localRunner_close agent0 = Done tt w1 /\
     trace w1 = trace agent0 ++ released_local agent0 /\
     is_closed (closeChan (rn w1)) w1 = true /\
     panicked (localRunner_close w1) = true)
  /\
  (exists w1,
     slaveRunner_close agent0 = Done tt w1 /\
     trace w1 = trace agent0 ++ released_slave agent0 /\
     is_closed (closeChan (rn w1)) w1 = true /\
     panicked (slaveRunner_close w1) = true).
Proof.
  assert (signal_open (closeChan (rn agent0)) agent0) as Hopen
    by (exists 0%nat; split; reflexivity).
  split; [exact Hopen|]. apply (close_once_then_faults agent0 Hopen).
Defined.

(** ** Properties kept by the operations *)

Section Keeps.

Variable P : world -> Prop.

Hypothesis P_trace : forall f w, P w -> P (with_trace f w).
Hypothesis P_chans : forall f w, P w -> P (with_chans f w).
Hypothesis P_spawners : forall f w, P w -> P (with_spawners f w).
Hypothesis P_subscriptions : forall f w, P w -> P (with_subscriptions f w).
Hypothesis P_numClients : forall n w, P w -> P (with_rn (set_numClients n) w).
Hypothesis P_hatchRate : forall n w, P w -> P (with_rn (set_hatchRate n) w).
Hypothesis P_stopChan : forall c w, P w -> P (with_rn (set_stopChan c) w).
Hypothesis P_state : forall s w,
  s <> stateQuitting -> P w -> P (with_rn (set_state s) w).

Lemma keeps_ret {A} (a : A) : keeps P (mret a).
Proof. intros w H. exact H. Qed.

Lemma keeps_panic {A} why : keeps P (@panic A why).
Proof. intros w H. exact H. Qed.

Lemma keeps_bind {A B} (c : M A) (k : A -> M B) :
  keeps P c -> (forall a, keeps P (k a)) -> keeps P (c ≫= k).
Proof.
  intros Hc Hk w H. unfold mbind, M_bind. specialize (Hc w H).
  destruct (c w) as [a w'|why w']; [apply Hk|]; exact Hc.
Qed.

Lemma keeps_get {A} (k : world -> M A) :
  (forall w0, keeps P (k w0)) -> keeps P (get ≫= k).
Proof. intros Hk w H. unfold mbind, M_bind, get. apply Hk. exact H. Qed.

Lemma keeps_emit e : keeps P (emit e).
Proof. intros w H. apply P_trace. exact H. Qed.

Lemma keeps_for_range {A} (l : list A) (body : A -> M unit) :
  (forall x, keeps P (body x)) -> keeps P (for_range l body).
Proof.
  intros Hbody. induction l as [|x l IH]; cbn; [apply keeps_ret|].
  apply keeps_bind; [apply Hbody | intros _; exact IH].
Qed.

Lemma keeps_send type_ data : keeps P (send type_ data).
Proof.
  apply keeps_get. intros w0. destruct (client (rn w0));
    [apply keeps_emit | apply keeps_panic].
Qed.

Lemma keeps_onQuiting : keeps P onQuiting.
Proof.
  apply keeps_get. intros w0.
  destruct (negb _); [apply keeps_send | apply keeps_ret].
Qed.

Lemma keeps_Events_Publish topic args : keeps P (Events_Publish topic args).
Proof.
  apply keeps_bind; [apply keeps_emit|]. intros _.
  apply keeps_get. intros w0. apply keeps_for_range. intros sub.
  destruct (String.eqb _ _); [|apply keeps_ret].
  destruct (snd sub). apply keeps_onQuiting.
Qed.

Lemma keeps_close_chan c : keeps P (close_chan c).
Proof.
  intros w H. unfold close_chan. destruct c as [|id]; [exact H|].
  destruct (chans w !! id) as [[]|]; cbn; [exact H | | exact H].
  apply P_chans. exact H.
Qed.

Lemma keeps_stop : keeps P stop.
Proof.
  apply keeps_bind.
  { apply keeps_get. intros w0. apply keeps_for_range. intros o. apply keeps_emit. }
  intros _. apply keeps_bind; [apply keeps_Events_Publish|]. intros _.
  apply keeps_get. intros w0.
  apply keeps_bind; [apply keeps_close_chan|]. intros _.
  destruct (rateLimitEnabled (rn w0)); [apply keeps_emit | apply keeps_ret].
Qed.

Lemma keeps_modify f : (forall w, P w -> P (f w)) -> keeps P (modify f).
Proof. intros Hf w H. apply Hf. exact H. Qed.

Lemma keeps_startHatching spawnCount rate f :
  keeps P (startHatching spawnCount rate f).
Proof.
  apply keeps_get. intros w0. apply keeps_bind.
  { destruct (stats (rn w0)); [apply keeps_emit | apply keeps_panic]. }
  intros _. apply keeps_bind.
  { intros w H. apply P_chans. exact H. }
  intros c. apply keeps_bind; [apply keeps_modify, P_stopChan|]. intros _.
  apply keeps_bind; [apply keeps_modify, P_hatchRate|]. intros _.
  apply keeps_bind; [apply keeps_modify, P_numClients|]. intros _.
  apply keeps_bind.
  { apply keeps_get. intros w1. apply keeps_for_range. intros o. apply keeps_emit. }
  intros _. apply keeps_get. intros w1. apply keeps_modify, P_spawners.
Qed.

Lemma keeps_onHatchMessage msg : keeps P (onHatchMessage msg).
Proof.
  unfold onHatchMessage.
  destruct (map_index (Data msg) "hatch_rate") as [[]|]; try apply keeps_panic.
  apply keeps_bind.
  { destruct (map_index (Data msg) "num_clients") as [[]|];
      apply keeps_panic || apply keeps_ret. }
  intros workers. apply keeps_bind; [apply keeps_send|]. intros _.
  apply keeps_bind; [apply keeps_Events_Publish|]. intros _.
  apply keeps_get. intros w0. apply keeps_bind.
  { destruct (rateLimitEnabled (rn w0)); [apply keeps_emit | apply keeps_ret]. }
  intros _. apply keeps_startHatching.
Qed.

Lemma keeps_set_state s : s <> stateQuitting -> keeps P (modify (with_rn (set_state s))).
Proof. intros Hs. apply keeps_modify. intros w. apply P_state. exact Hs. Qed.

Lemma keeps_onMessage msg : keeps P (onMessage msg).
Proof.
  apply keeps_get. intros w0. cbv zeta.
  repeat match goal with
  | |- keeps P (if ?b then _ else _) => destruct b
  | |- keeps P (mret _) => apply keeps_ret
  | |- keeps P (_ ≫= _) => apply keeps_bind; [|intros _]
  | |- keeps P (modify (with_rn (set_state _))) => apply keeps_set_state; discriminate
  | |- keeps P stop => apply keeps_stop
  | |- keeps P (onHatchMessage _) => apply keeps_onHatchMessage
  | |- keeps P (Events_Publish _ _) => apply keeps_Events_Publish
  | |- keeps P (send _ _) => apply keeps_send
  end.
Qed.

Lemma keeps_hatchComplete : keeps P hatchComplete.
Proof.
  apply keeps_get. intros w0. cbv zeta.
  apply keeps_bind; [apply keeps_send|]. intros _.
  apply keeps_set_state. discriminate.
Qed.

Lemma keeps_spawnWorkers_iter quit_closed s : keeps P (spawnWorkers_iter quit_closed s).
Proof.
  unfold spawnWorkers_iter. destruct (sp_i s <? sp_spawnCount s).
  - destruct quit_closed; [apply keeps_ret|].
    apply keeps_bind; [apply keeps_emit|]. intros _.
    apply keeps_bind.
    { intros w H. apply P_numClients. exact H. }
    intros _. apply keeps_get. intros w0. apply keeps_bind; [|intros _; apply keeps_ret].
    destruct (_ && _); [apply keeps_emit | apply keeps_ret].
  - apply keeps_bind; [|intros _; apply keeps_ret].
    destruct (sp_hatchCompleteFunc s) as [[]|]; [|apply keeps_ret].
    apply keeps_bind; [apply keeps_emit|]. intros _. apply keeps_hatchComplete.
Qed.

Lemma keeps_spawner_step tid : keeps P (spawner_step tid).
Proof.
  apply keeps_get. intros w0. destruct (spawners w0 !! tid) as [s|]; [|apply keeps_ret].
  destruct (sp_pc s); try apply keeps_ret.
  apply keeps_bind; [apply keeps_spawnWorkers_iter|]. intros s'.
  apply keeps_modify, P_spawners.
Qed.

Lemma keeps_slaveRunner_report data : keeps P (slaveRunner_report data).
Proof.
  apply keeps_get. intros w0. destruct (_ || _); [apply keeps_ret|].
  apply keeps_bind.
  { destruct data; [apply keeps_ret | apply keeps_panic]. }
  intros data'. apply keeps_bind; [apply keeps_send|]. intros _.
  apply keeps_get. intros w1. apply keeps_for_range. intros o. apply keeps_emit.
Qed.

Lemma keeps_step a : keeps P (step a).
Proof.
  destruct a; cbn.
  - apply keeps_onMessage.
  - apply keeps_spawner_step.
  - apply keeps_slaveRunner_report.
  - apply keeps_get. intros w0. apply keeps_send.
Qed.

Lemma keeps_exec acts : keeps P (exec acts).
Proof. apply keeps_for_range, keeps_step. Qed.

End Keeps.

(** No operation of the agent puts the machine in [stateQuitting]. *)
Lemma state_never_quitting (acts : list action) (w : world) :
  state (rn w) <> stateQuitting ->
  state (rn (world_of (exec acts w))) <> stateQuitting.
Proof.
  apply (keeps_exec (fun w => state (rn w) <> stateQuitting));
    intros; assumption.
Qed.

(** [stop] starts no [spawnWorkers] goroutine and ends none. *)
Lemma stop_spawners w : spawners (world_of (stop w)) = spawners w.
Proof.
  apply (keeps_stop (fun w' => spawners w' = spawners w));
    [intros; assumption.. | reflexivity].
Qed.

(** ** The hatch message *)

Lemma onHatchMessage_well_formed msg rate clients hatchRate workers w :
  map_index (Data msg) "hatch_rate" = Some rate ->
  map_index (Data msg) "num_clients" = Some clients ->
  signed_rate rate = Some hatchRate ->
  signed_count clients = Some workers ->
  onHatchMessage msg w = begin_hatch_cycle workers hatchRate w.
Proof.
  intros Hrate Hclients Hr Hc. unfold onHatchMessage. rewrite Hrate, Hclients.
  destruct rate; try discriminate. injection Hr as <-.
  destruct clients; try discriminate; injection Hc as <-; reflexivity.
Qed.

Lemma onHatchMessage_bad_rate msg w :
  (map_index (Data msg) "hatch_rate" ≫= signed_rate) = None ->
  onHatchMessage msg w
  = Panicked "interface conversion: interface {} is not float64" w.
Proof.
  intros Hrate. unfold onHatchMessage.
  destruct (map_index (Data msg) "hatch_rate") as [[]|]; try reflexivity.
  discriminate.
Qed.

Lemma onHatchMessage_bad_count msg w :
  (map_index (Data msg) "num_clients" ≫= signed_count) = None ->
  exists why, onHatchMessage msg w = Panicked why w.
Proof.
  intros Hcount. unfold onHatchMessage.
  destruct (map_index (Data msg) "hatch_rate") as [[]|]; try (eexists; reflexivity).
  destruct (map_index (Data msg) "num_clients") as [[]|];
    try discriminate; eexists; reflexivity.
Qed.

(** C4, as it stands, fails: a hatch rate that arrives as a signed or as
    an unsigned integer is not accepted; the type assertion panics. *)
Lemma integer_hatch_rate_faults :
  onHatchMessage (hatch_msg (VInt64 5) (VInt64 2)) agent_ready
  = Panicked "interface conversion: interface {} is not float64" agent_ready /\
  onHatchMessage (hatch_msg (VInt64 5) (VUint64 2)) agent_ready
  = Panicked "interface conversion: interface {} is not float64" agent_ready.
Proof. split; reflexivity. Qed.

(** C4, amended. When a hatch message is processed, the worker count is
    accepted as an unsigned or as a signed 64-bit integer and converted to
    a signed [int]; the hatch rate is accepted as a [float64] only and
    truncated to a signed [int]; the two signed integers are what is
    published and what [startHatching] receives. *)
Theorem hatch_payload_normalized (msg : message) (f : float) (clients : value)
    (workers : Z) (w : world) :
  map_index (Data msg) "hatch_rate" = Some (VFloat64 f) ->
  map_index (Data msg) "num_clients" = Some clients ->
  signed_count clients = Some workers ->
  (exists z, clients = VUint64 z \/ clients = VInt64 z) /\
  onHatchMessage msg w =
    (send "hatching" None;;
     Events_Publish "boomer:hatch" [workers; Go.int_of_float64 f];;
     w' ← get;
     (if rateLimitEnabled (rn w') then emit RateLimiterStart else mret tt);;
     startHatching workers (Go.int_of_float64 f) (Some HatchComplete)) w /\
  forall msg' : message,
    (forall f', map_index (Data msg') "hatch_rate" <> Some (VFloat64 f')) ->
    onHatchMessage msg' w
    = Panicked "interface conversion: interface {} is not float64" w.
Proof.
  intros Hrate Hclients Hcount. split; [|split].
  - destruct clients; try discriminate; eexists; eauto.
  - apply (onHatchMessage_well_formed msg (VFloat64 f) clients); auto.
  - intros msg' Hnot. apply onHatchMessage_bad_rate.
    destruct (map_index (Data msg') "hatch_rate") as [[]|] eqn:E; try reflexivity.
    exfalso. eapply Hnot. reflexivity.
Qed.

Lemma hatch_payload_normalized_witness :
  map_index (Data (hatch_msg (VUint64 5) (VFloat64 2.5))) "hatch_rate"
  = Some (VFloat64 2.5) /\
  map_index (Data (hatch_msg (VUint64 5) (VFloat64 2.5))) "num_clients"
  = Some (VUint64 5) /\
  signed_count (VUint64 5) = Some 5 /\
  (exists z, VUint64 5 = VUint64 z \/ VUint64 5 = VInt64 z) /\
  onHatchMessage (hatch_msg (VUint64 5) (VFloat64 2.5)) agent_ready =
    (send "hatching" None;;
     Events_Publish "boomer:hatch" [5; Go.int_of_float64 2.5];;
     w' ← get;
     (if rateLimitEnabled (rn w') then emit RateLimiterStart else mret tt);;
     startHatching 5 (Go.int_of_float64 2.5) (Some HatchComplete)) agent_ready /\
  forall msg' : message,
    (forall f', map_index (Data msg') "hatch_rate" <> Some (VFloat64 f')) ->
    onHatchMessage msg' agent_ready
    = Panicked "interface conversion: interface {} is not float64" agent_ready.
Proof.
  split; [reflexivity|]. split; [reflexivity|]. split; [reflexivity|].
  apply (hatch_payload_normalized (hatch_msg (VUint64 5) (VFloat64 2.5)) 2.5
           (VUint64 5) 5 agent_ready); reflexivity.
Defined.

(** The scenario of the spec: five users at rate two, from [ready]. *)
Example hatch_five :
  let res := exec [Recv (hatch_msg (VInt64 5) (VFloat64 2));
                   Spawn 0; Spawn 0; Spawn 0; Spawn 0; Spawn 0; Spawn 0]
               agent_ready in
  panicked res = false /\
  state (rn (world_of res)) = stateRunning /\
  numClients (rn (world_of res)) = 5 /\
  hatchRate (rn (world_of res)) = 2 /\
  sent (trace (world_of res)) = ["client_ready"; "hatching"; "hatch_complete"].
Proof. vm_compute. repeat split. Qed.

(** An unsigned count beyond the signed range wraps; a rate is truncated. *)
Example signed_count_wraps : signed_count (VUint64 (2 ^ 64 - 1)) = Some (-1).
Proof. reflexivity. Qed.

Example signed_rate_truncates :
  signed_rate (VFloat64 2.5) = Some 2 /\ signed_rate (VFloat64 (-0.5)) = Some 0.
Proof. split; reflexivity. Qed.

Lemma onHatchMessage_malformed msg w :
  malformed msg -> exists why, onHatchMessage msg w = Panicked why w.
Proof.
  intros [Hrate|Hcount].
  - eexists. apply onHatchMessage_bad_rate. exact Hrate.
  - apply onHatchMessage_bad_count. exact Hcount.
Qed.

(** What [onMessage] runs on a hatch message, by state. *)
Lemma onMessage_hatch msg w :
  Type_ msg = "hatch" ->
  hatchable (state (rn w)) ->
  onMessage msg w =
  (modify (with_rn (set_state stateHatching));;
   (if String.eqb (state (rn w)) stateHatching || String.eqb (state (rn w)) stateRunning
    then stop else mret tt);;
   onHatchMessage msg) w.
Proof.
  intros Htype Hstate. unfold onMessage. unfold mbind at 1, M_bind at 1, get at 1.
  cbv zeta. rewrite Htype.
  destruct Hstate as [-> | [-> | [-> | ->]]]; reflexivity.
Qed.

(** C5, as it stands, fails: a hatch message without its payload makes
    [onMessage] panic, and with it the listener; the panic is not
    recovered. *)
Lemma malformed_hatch_faults_listener :
  onMessage (newMessage "hatch" None "master") agent_ready
  = Panicked "interface conversion: interface {} is not float64"
      (with_rn (set_state stateHatching) agent_ready) /\
  forall rest,
    exec (Recv (newMessage "hatch" None "master") :: rest) agent_ready
    = Panicked "interface conversion: interface {} is not float64"
        (with_rn (set_state stateHatching) agent_ready).
Proof. split; [|intros rest]; reflexivity. Qed.

(** C5, amended. Processing a hatch message whose payload is malformed
    panics at the type assertion, before anything is sent and before a
    hatch cycle is started: [onHatchMessage] panics in the world it was
    called in, and [onMessage], in a state in which it acts on hatch
    messages, panics with no [spawnWorkers] goroutine started; the panic
    is not recovered, so the listener processes no further message. *)
Theorem malformed_hatch_panics (msg : message) (w : world) :
  Type_ msg = "hatch" ->
  malformed msg ->
  (exists why, onHatchMessage msg w = Panicked why w) /\
  (hatchable (state (rn w)) ->
     panicked (onMessage msg w) = true /\
     spawners (world_of (onMessage msg w)) = spawners w /\
     forall rest, exec (Recv msg :: rest) w = onMessage msg w).
Proof.
  intros Htype Hbad.
  pose proof (onHatchMessage_malformed msg) as Hpanic.
  split; [apply Hpanic; exact Hbad|].
  intros Hstate.
  assert (panicked (onMessage msg w) = true /\
          spawners (world_of (onMessage msg w)) = spawners w) as [Hp Hs].
  { rewrite (onMessage_hatch msg w Htype Hstate).
    unfold mbind, M_bind, modify, mret, M_ret.
    destruct (String.eqb (state (rn w)) stateHatching
              || String.eqb (state (rn w)) stateRunning).
    - pose proof (stop_spawners (with_rn (set_state stateHatching) w)) as Hstop.
      destruct (stop (with_rn (set_state stateHatching) w)) as [[] w1|why w1].
      + destruct (Hpanic w1 Hbad) as [why ->]. split; [reflexivity | exact Hstop].
      + split; [reflexivity | exact Hstop].
    - destruct (Hpanic (with_rn (set_state stateHatching) w) Hbad) as [why ->].
      split; reflexivity. }
  split; [exact Hp|]. split; [exact Hs|].
  intros rest. unfold exec. cbn [for_range step]. unfold mbind, M_bind.
  destruct (onMessage msg w); [discriminate | reflexivity].
Qed.

Lemma malformed_hatch_panics_witness :
  Type_ (hatch_msg (VString "5") (VFloat64 2)) = "hatch" /\
  malformed (hatch_msg (VString "5") (VFloat64 2)) /\
  (exists why,
     onHatchMessage (hatch_msg (VString "5") (VFloat64 2)) agent_ready
     = Panicked why agent_ready) /\
  hatchable (state (rn agent_ready)) /\
  panicked (onMessage (hatch_msg (VString "5") (VFloat64 2)) agent_ready) = true /\
  spawners (world_of (onMessage (hatch_msg (VString "5") (VFloat64 2)) agent_ready))
  = spawners agent_ready /\
  forall rest,
    exec (Recv (hatch_msg (VString "5") (VFloat64 2)) :: rest) agent_ready
    = onMessage (hatch_msg (VString "5") (VFloat64 2)) agent_ready.
Proof.
  assert (hatchable (state (rn agent_ready))) as Hstate by (left; reflexivity).
  destruct (malformed_hatch_panics (hatch_msg (VString "5") (VFloat64 2)) agent_ready)
    as [Hpanic Hlistener]; [reflexivity | right; reflexivity |].
  split; [reflexivity|]. split; [right; reflexivity|].
  split; [exact Hpanic|]. split; [exact Hstate|]. apply Hlistener. exact Hstate.
Defined.

(** ** Agent mode: quit *)

(** Outside [stateQuitting] the quit handler sends [quit] to the
    controller. *)
Lemma onQuiting_sends w :
  state (rn w) <> stateQuitting ->
  client (rn w) = true ->
  onQuiting w
  = Done tt (with_trace (fun t => t ++ [Send (newMessage "quit" None (nodeID (rn w)))]) w).
Proof.
  intros Hstate Hclient. unfold onQuiting, send. unfold mbind, M_bind, get.
  apply String.eqb_neq in Hstate. rewrite Hstate. cbn. rewrite Hclient. reflexivity.
Qed.

(** C6. The code at the failing input: a quit message of the controller,
    received in [ready] and received in [running], is answered with a quit
    message to the controller.  The handler [onQuiting], subscribed by
    [run], holds its message back in [stateQuitting] only, and the machine
    is never in that state. *)
Theorem controller_quit_is_echoed :
  state (rn agent_ready) = stateInit /\
  sent (trace (world_of (onMessage quit_msg agent_ready)))
  = sent (trace agent_ready) ++ ["quit"] /\
  state (rn agent_running) = stateRunning /\
  sent (trace (world_of (onMessage quit_msg agent_running)))
  = sent (trace agent_running) ++ ["quit"] /\
  forall acts, state (rn (world_of (exec acts agent_ready))) <> stateQuitting.
Proof.
  split; [reflexivity|]. split; [reflexivity|].
  split; [reflexivity|]. split; [vm_compute; reflexivity|].
  intros acts. apply state_never_quitting. discriminate.
Qed.

(** ** Agent mode: the stats relay *)

(** C9, as it stands, fails: in [ready] a stats event reaches no output
    sink, and no count is attached to it: the relay does nothing at all. *)
Lemma ready_agent_drops_stats_event :
  state (rn agent_with_sink) = stateInit /\
  outputs (rn agent_with_sink) = [7%nat] /\
  slaveRunner_report (Some ∅) agent_with_sink = Done tt agent_with_sink.
Proof. repeat split. Qed.

(** C9, amended. In agent mode, for every stats event drained from the
    stats collaborator: when the state is [ready] or [stopped] the event is
    dropped whole (no count is attached, no sink sees it, nothing is
    forwarded); in every other state the current worker count is attached,
    the event is forwarded to the controller as a stats message, and it is
    then fanned out to the output sinks. *)
Theorem stats_event_relay (m : gmap string value) (w : world) :
  client (rn w) = true ->
  (state (rn w) = stateInit \/ state (rn w) = stateStopped ->
     slaveRunner_report (Some m) w = Done tt w)
  /\
  (state (rn w) <> stateInit -> state (rn w) <> stateStopped ->
     slaveRunner_report (Some m) w
     = Done tt
         (with_trace (fun t =>
            (t ++ [Send (newMessage "stats" (with_user_count w m) (nodeID (rn w)))])
            ++ map (fun o => OutputOnEvent o (with_user_count w m)) (outputs (rn w)))
          w)).
Proof.
  intros Hclient. unfold slaveRunner_report. split.
  - unfold mbind at 1, M_bind at 1, get at 1. intros [-> | ->]; reflexivity.
  - intros Hready Hstopped. unfold mbind at 1, M_bind at 1, get at 1.
    apply String.eqb_neq in Hready, Hstopped. rewrite Hready, Hstopped.
    cbn [orb map_assign]. unfold send, outputOnEevent.
    unfold mbind, M_bind, mret, M_ret, get. rewrite Hclient.
    cbn -[for_range]. rewrite for_range_emit. reflexivity.
Qed.

Lemma stats_event_relay_witness :
  client (rn agent_running) = true /\
  (state (rn agent_running) = stateInit \/ state (rn agent_running) = stateStopped ->
     slaveRunner_report (Some ∅) agent_running = Done tt agent_running)
  /\
  (state (rn agent_running) <> stateInit -> state (rn agent_running) <> stateStopped ->
     slaveRunner_report (Some ∅) agent_running
     = Done tt
         (with_trace (fun t =>
            (t ++ [Send (newMessage "stats" (with_user_count agent_running ∅)
                           (nodeID (rn agent_running)))])
            ++ map (fun o => OutputOnEvent o (with_user_count agent_running ∅))
                 (outputs (rn agent_running)))
          agent_running)).
Proof.
  split; [reflexivity|].
  apply (stats_event_relay ∅ agent_running). reflexivity.
Defined.

(** ** Agent mode: stop *)

(** [stop] on an open cancellation signal, with nothing subscribed to the
    stop topic: the sinks are stopped, the stop is published, the signal is
    closed and the rate limiter stopped. *)
Lemma stop_open w :
  signal_open (stopChan (rn w)) w ->
  nothing_subscribed "boomer:stop" w ->
  exists id,
    stopChan (rn w) = ChanRef id /\
    stop w =
    Done tt
      (with_trace (fun t => t ++ limiter_stopped w)
         (with_chans (fun h => <[id := true]> h)
            (with_trace (fun t => t ++ [Publish "boomer:stop" []])
               (with_trace (fun t => t ++ map OutputOnStop (outputs (rn w))) w)))).
Proof.
  intros (id & Hc & Hopen) Hnone. exists id. split; [exact Hc|].
  unfold stop, outputOnStop, limiter_stopped.
  unfold mbind at 1, M_bind at 1. unfold mbind at 1, M_bind at 1, get at 1.
  rewrite for_range_emit.
  unfold mbind at 1, M_bind at 1.
  rewrite Events_Publish_nothing_subscribed by exact Hnone.
  unfold mbind at 1, M_bind at 1, get at 1. cbn [rn with_trace].
  rewrite Hc. unfold mbind, M_bind, close_chan. cbn [chans with_trace].
  rewrite Hopen. destruct (rateLimitEnabled (rn w)); cbn.
  - reflexivity.
  - unfold mret, M_ret, with_trace, with_chans. cbn. rewrite app_nil_r. reflexivity.
Qed.

Lemma sent_OutputOnStop (os : list nat) : sent (map OutputOnStop os) = [].
Proof. induction os as [|o os IH]; [reflexivity | exact IH]. Qed.

(** The row of the transition table for [stop], taken where the current
    cycle's cancellation signal is still open: [stop()] runs, the
    controller is sent [client_stopped] and then [client_ready], and the
    machine is back in [ready], the signal closed. *)
Lemma onMessage_stop_open msg w :
  Type_ msg = "stop" ->
  state (rn w) = stateHatching \/ state (rn w) = stateRunning ->
  client (rn w) = true ->
  signal_open (stopChan (rn w)) w ->
  nothing_subscribed "boomer:stop" w ->
  exists w',
    onMessage msg w = Done tt w' /\
    state (rn w') = stateInit /\
    sent (trace w') = sent (trace w) ++ ["client_stopped"; "client_ready"] /\
    stopChan (rn w') = stopChan (rn w) /\
    is_closed (stopChan (rn w')) w' = true /\
    spawners w' = spawners w.
Proof.
  intros Htype Hstate Hclient Hopen Hnone.
  destruct (stop_open w Hopen Hnone) as (id & Hc & Hstop).
  destruct Hopen as (id' & Hc' & Hopen). rewrite Hc in Hc'. injection Hc' as <-.
  assert (onMessage msg w =
          (stop;;
           modify (with_rn (set_state stateStopped));;
           send "client_stopped" None;;
           send "client_ready" None;;
           modify (with_rn (set_state stateInit))) w) as ->.
  { unfold onMessage. unfold mbind at 1, M_bind at 1, get at 1. cbv zeta.
    rewrite Htype. destruct Hstate as [-> | ->]; reflexivity. }
  unfold mbind at 1, M_bind at 1. rewrite Hstop.
  do 3 (unfold send, mbind, M_bind, modify, get, emit; cbn; rewrite ?Hclient).
  eexists. split; [reflexivity|]. cbn. rewrite Hc.
  split; [reflexivity|]. split.
  - rewrite !sent_app. cbn.
    rewrite sent_OutputOnStop.
    assert (sent (limiter_stopped w) = []) as ->.
    { unfold limiter_stopped. destruct (rateLimitEnabled (rn w)); reflexivity. }
    rewrite !app_nil_r, <- app_assoc. reflexivity.
  - split; [reflexivity|]. split; [|reflexivity].
    unfold is_closed. cbn.
    rewrite list_lookup_insert_eq; [reflexivity|].
    apply lookup_lt_is_Some_1. eauto.
Qed.

(** C1. The code at the failing input.  One user is hatched at rate 1 in
    the smooth style; the stop message is processed after the launch, while
    the spawner sleeps; the machine answers as the table says and is in
    [ready].  The spawner then leaves its loop and, without looking at the
    cancellation signal again, calls [hatchComplete], which puts the
    machine in [running] on the closed signal.  The next stop message is
    received in [running]: [stop()] panics on closing the closed signal,
    nothing is sent and the machine does not reach [ready]. *)
Theorem stop_after_late_hatch_complete_faults :
  state (rn agent_stopped_late) = stateInit /\
  sent (trace agent_stopped_late)
  = ["client_ready"; "hatching"; "client_stopped"; "client_ready"] /\
  exists w w',
    spawner_step 0 agent_stopped_late = Done tt w /\
    state (rn w) = stateRunning /\
    is_closed (stopChan (rn w)) w = true /\
    sent (trace w) = sent (trace agent_stopped_late) ++ ["hatch_complete"] /\
    onMessage stop_msg w = Panicked "close of closed channel" w' /\
    sent (trace w') = sent (trace w) /\
    state (rn w') = stateRunning.
Proof.
  split; [reflexivity|]. split; [reflexivity|].
  eexists _, _. split; [vm_compute; reflexivity|].
  repeat (split; [vm_compute; reflexivity|]). vm_compute. reflexivity.
Qed.

(** * Further properties of the code *)

(** ** The weight sum *)

(** [getWeightSum] is the sum of the weights reduced to the 64 bits of an
    [int]: the additions wrap around, and only the total matters. *)
Theorem getWeightSum_wraps (ts : list Task) :
  getWeightSum ts = Go.int (total_weight ts).
Proof.
  unfold getWeightSum. change 0 with (Go.int 0) at 1.
  rewrite getWeightSum_from. reflexivity.
Qed.

(** With non-negative weights whose sum fits an [int], [getWeightSum] is
    the sum of the weights, and it is zero exactly when every weight is
    zero: the uniform selection is taken for all-zero weights only. *)
Theorem getWeightSum_exact (ts : list Task) :
  Forall (fun task => 0 <= Weight task) ts ->
  total_weight ts <= Go.max_int ->
  getWeightSum ts = total_weight ts /\
  (getWeightSum ts = 0 <-> Forall (fun task => Weight task = 0) ts).
Proof.
  intros Hnonneg Hfits.
  assert (getWeightSum ts = total_weight ts) as Hsum.
  { unfold getWeightSum. change 0 with (Go.int 0) at 1.
    rewrite getWeightSum_from, Z.add_0_l. apply int_small.
    pose proof (total_weight_nonneg ts Hnonneg). unfold Go.min_int. lia. }
  split; [exact Hsum|]. rewrite Hsum. apply total_weight_zero. exact Hnonneg.
Qed.

Lemma getWeightSum_exact_witness :
  Forall (fun task => 0 <= Weight task) [taskA; taskC; taskB] /\
  total_weight [taskA; taskC; taskB] <= Go.max_int /\
  getWeightSum [taskA; taskC; taskB] = total_weight [taskA; taskC; taskB] /\
  (getWeightSum [taskA; taskC; taskB] = 0 <->
   Forall (fun task => Weight task = 0) [taskA; taskC; taskB]).
Proof.
  assert (Forall (fun task => 0 <= Weight task) [taskA; taskC; taskB]) as Hnonneg
    by (repeat constructor; cbn; lia).
  assert (total_weight [taskA; taskC; taskB] <= Go.max_int) as Hfits
    by (vm_compute; discriminate).
  split; [exact Hnonneg|]. split; [exact Hfits|].
  apply (getWeightSum_exact [taskA; taskC; taskB] Hnonneg Hfits).
Defined.

(** Weights that are positive one by one can sum to zero in an [int]. *)
Example getWeightSum_overflow :
  getWeightSum (replicate 4 (mkTask "heavy" (2 ^ 62) FnReturns)) = 0.
Proof. vm_compute. reflexivity. Qed.

(** ** Selection and the worker's turn *)

(** A selected task is a task of the registry, and selecting leaves the
    runner as it was. *)
Theorem select_task_in_registry (ts : list Task) (weightSum : Z) (rnd : random)
    (w w' : world) (task : Task) :
  select_task ts weightSum rnd w = Done (Some task) w' ->
  task ∈ ts /\ w' = w.
Proof.
  unfold select_task. destruct (weightSum =? 0).
  - unfold mbind, M_bind, Int63n.
    destruct (Z.of_nat (length ts) <=? 0); [discriminate|].
    unfold mret at 1, M_ret at 1.
    destruct (ts !! Z.to_nat (Int63 rnd mod Z.of_nat (length ts))) as [task'|] eqn:Hlook;
      [|discriminate].
    intros [= <- <-]. split; [|reflexivity].
    eapply list_elem_of_lookup_2. exact Hlook.
  - intros [= Hloop <-]. split; [|reflexivity].
    apply select_loop_Some in Hloop as (k & Hlook & _).
    eapply list_elem_of_lookup_2. exact Hlook.
Qed.

Lemma select_task_in_registry_witness :
  select_task [taskA; taskB] 2 (mkRandom 0 0.25) two_equal_tasks
  = Done (Some taskA) two_equal_tasks /\
  taskA ∈ [taskA; taskB] /\ two_equal_tasks = two_equal_tasks.
Proof.
  assert (select_task [taskA; taskB] 2 (mkRandom 0 0.25) two_equal_tasks
          = Done (Some taskA) two_equal_tasks) as Hsel by (vm_compute; reflexivity).
  split; [exact Hsel|].
  apply (select_task_in_registry [taskA; taskB] 2 (mkRandom 0 0.25)
           two_equal_tasks two_equal_tasks taskA Hsel).
Defined.

Lemma safeRun_contained task w :
  exists t', safeRun task w = Done tt (with_trace (fun t => t ++ t') w) /\
    ran t' = names_run (Some task) /\ errors t' = errors_recovered (Some task).
Proof.
  unfold safeRun, errors_recovered.
  unfold mbind, M_bind, emit, modify. destruct (Fn task); cbn.
  - exists [RunTask (Name task)]. repeat split.
  - exists [RunTask (Name task); Stderr err]. unfold with_trace. cbn.
    rewrite <- app_assoc. repeat split.
Qed.

(** Given what the selection event of the turn returns (the draws from the
    shared random source included), a turn of a worker's loop does not
    panic, whatever the selected task does: a panic of the task body is
    recovered, its error written to the error stream, and the worker goes
    on.  The turn changes nothing but the trace.  It ends the worker
    exactly when the cancellation signal is set, and then does nothing; when
    the rate limiter blocks it only asks the limiter; otherwise it runs the
    selected task, once, and no other. *)
Theorem worker_turn_runs_selected (quit_closed blocked : bool) (weightSum : Z)
    (rnd : random) (selected : option Task) (w : world) :
  (forall w0, select_task (tasks (rn w)) weightSum rnd w0 = Done selected w0) ->
  exists next t',
    worker_iter quit_closed blocked weightSum rnd w
    = Done next (with_trace (fun t => t ++ t') w) /\
    (next = WorkerReturn <-> quit_closed = true) /\
    (quit_closed = true -> t' = []) /\
    (quit_closed = false -> rateLimitEnabled (rn w) = true -> blocked = true ->
       t' = [RateLimiterAcquire]) /\
    (quit_closed = false -> rateLimitEnabled (rn w) = false \/ blocked = false ->
       ran t' = names_run selected /\ errors t' = errors_recovered selected).
Proof.
  intros Hsel. unfold worker_iter. destruct quit_closed.
  { exists WorkerReturn, []. rewrite with_trace_nil.
    repeat split; try reflexivity; discriminate. }
  unfold mbind at 1, M_bind at 1, get at 1.
  assert (forall w0,
            exists t1,
              (selected ← select_task (tasks (rn w)) weightSum rnd;
               match selected with
               | Some task => safeRun task
               | None => mret tt
               end;;
               mret WorkerContinue) w0
              = Done WorkerContinue (with_trace (fun t => t ++ t1) w0) /\
              ran t1 = names_run selected /\
              errors t1 = errors_recovered selected) as Hbody.
  { intros w0. unfold mbind at 1, M_bind at 1. rewrite Hsel.
    destruct selected as [task|].
    - destruct (safeRun_contained task w0) as (t1 & Hrun & Hran & Herr).
      exists t1. unfold mbind, M_bind. rewrite Hrun. repeat split; assumption.
    - exists []. rewrite with_trace_nil. repeat split. }
  destruct (rateLimitEnabled (rn w)) eqn:Hrl.
  - unfold mbind at 1, M_bind at 1. unfold mbind at 1, M_bind at 1, emit, modify.
    unfold mret at 1, M_ret at 1. destruct blocked; cbn [negb].
    + exists WorkerContinue, [RateLimiterAcquire].
      split; [reflexivity|]. split; [split; discriminate|].
      split; [discriminate|]. split; [reflexivity|].
      intros _ [H|H]; discriminate.
    + destruct (Hbody (with_trace (fun t => t ++ [RateLimiterAcquire]) w))
        as (t1 & Hrun & Hran & Herr).
      exists WorkerContinue, (RateLimiterAcquire :: t1). rewrite Hrun.
      split; [unfold with_trace; cbn; rewrite <- app_assoc; reflexivity|].
      split; [split; discriminate|]. split; [discriminate|].
      split; [discriminate|]. intros _ _. split; assumption.
  - unfold mbind at 1, M_bind at 1. unfold mret at 1, M_ret at 1.
    destruct (Hbody w) as (t1 & Hrun & Hran & Herr).
    exists WorkerContinue, t1. split; [exact Hrun|].
    split; [split; discriminate|]. split; [discriminate|].
    split; [discriminate|]. intros _ _. split; assumption.
Qed.

Lemma worker_turn_runs_selected_witness :
  (forall w0,
     select_task (tasks (rn panicking_task)) 1 (mkRandom 0 0.5) w0
     = Done (Some (mkTask "bad" 1 (FnPanics "boom"))) w0) /\
  exists next t',
    worker_iter false false 1 (mkRandom 0 0.5) panicking_task
    = Done next (with_trace (fun t => t ++ t') panicking_task) /\
    (next = WorkerReturn <-> false = true) /\
    (false = true -> t' = []) /\
    (false = false -> rateLimitEnabled (rn panicking_task) = true -> false = true ->
       t' = [RateLimiterAcquire]) /\
    (false = false -> rateLimitEnabled (rn panicking_task) = false \/ false = false ->
       ran t' = names_run (Some (mkTask "bad" 1 (FnPanics "boom"))) /\
       errors t' = errors_recovered (Some (mkTask "bad" 1 (FnPanics "boom")))).
Proof.
  assert (forall w0,
            select_task (tasks (rn panicking_task)) 1 (mkRandom 0 0.5) w0
            = Done (Some (mkTask "bad" 1 (FnPanics "boom"))) w0) as Hsel
    by (intros w0; reflexivity).
  split; [exact Hsel|].
  apply (worker_turn_runs_selected false false 1 (mkRandom 0 0.5)
           (Some (mkTask "bad" 1 (FnPanics "boom"))) panicking_task Hsel).
Defined.

(** The task that panics is run, its error goes to the error stream, and
    the worker continues. *)
Example panicking_task_turn :
  worker_iter false false 1 (mkRandom 0 0.5) panicking_task
  = Done WorkerContinue
      (with_trace (fun t => t ++ [RunTask "bad"; Stderr "boom"]) panicking_task).
Proof. vm_compute. reflexivity. Qed.

(** With no task registered the weight sum is zero and the first turn of
    a worker that gets past the signal and the rate limiter panics, outside
    [safeRun]: [Int63n] is called with 0. *)
Theorem worker_turn_empty_registry (blocked : bool) (rnd : random) (w : world) :
  tasks (rn w) = [] ->
  rateLimitEnabled (rn w) = false \/ blocked = false ->
  panicked (worker_iter false blocked (getWeightSum (tasks (rn w))) rnd w) = true.
Proof.
  intros Hempty Hpass. unfold worker_iter.
  unfold mbind, M_bind, get, emit, modify, mret, M_ret. cbv beta.
  rewrite !Hempty.
  destruct (rateLimitEnabled (rn w)), blocked, Hpass; try discriminate; reflexivity.
Qed.

Lemma worker_turn_empty_registry_witness :
  tasks (rn no_tasks) = [] /\
  (rateLimitEnabled (rn no_tasks) = false \/ false = false) /\
  panicked (worker_iter false false (getWeightSum (tasks (rn no_tasks)))
              (mkRandom 5 0.5) no_tasks) = true.
Proof.
  split; [reflexivity|]. split; [left; reflexivity|].
  apply (worker_turn_empty_registry false (mkRandom 5 0.5) no_tasks);
    [reflexivity | left; reflexivity].
Defined.

(** ** The spawner, launch by launch *)

Lemma spawnWorkers_iter_launch_eq s w :
  sp_i s < sp_spawnCount s ->
  spawnWorkers_iter false s w = Done (set_i (sp_i s + 1) s) (launch (sp_quit s) w).
Proof.
  intros Hlt. unfold spawnWorkers_iter, launch, paced.
  destruct (sp_i s <? sp_spawnCount s) eqn:H; [|lia].
  unfold mbind, M_bind, emit, modify, get, mret, M_ret. cbn.
  destruct (negb (hatchRate (rn w) =? 0) && String.eqb (hatchType (rn w)) "smooth");
    reflexivity.
Qed.

Lemma spawnWorkers_iter_finish_eq quit_closed s w :
  sp_spawnCount s <= sp_i s ->
  spawnWorkers_iter quit_closed s w =
  match completion (sp_hatchCompleteFunc s) w with
  | Done _ w' => Done (set_pc SpawnReturned s) w'
  | Panicked why w' => Panicked why w'
  end.
Proof.
  intros Hge. unfold spawnWorkers_iter, completion.
  destruct (sp_i s <? sp_spawnCount s) eqn:H; [lia|]. reflexivity.
Qed.

Lemma launch_with_spawners f quit w :
  launch quit (with_spawners f w) = with_spawners f (launch quit w).
Proof. unfold launch, paced. cbn. destruct (_ && _); reflexivity. Qed.

Lemma launch_cases quit w :
  launch quit w =
  let w1 :=
    with_rn (fun r => set_numClients (Go.int32 (numClients r + 1)) r)
      (with_trace (fun t => t ++ [GoWorker quit]) w) in
  if paced w then with_trace (fun t => t ++ [Sleep (hatchRate (rn w))]) w1 else w1.
Proof. reflexivity. Qed.

Lemma launch_trace quit w :
  trace (launch quit w)
  = trace w ++ GoWorker quit :: (if paced w then [Sleep (hatchRate (rn w))] else []).
Proof.
  rewrite launch_cases. cbv zeta. destruct (paced w); cbn.
  - rewrite <- app_assoc. reflexivity.
  - reflexivity.
Qed.

Lemma launch_same quit w : same_but_count (rn (launch quit w)) (rn w).
Proof. rewrite launch_cases. cbv zeta. destruct (paced w); reflexivity. Qed.

Lemma launch_numClients quit w :
  numClients (rn (launch quit w)) = Go.int32 (numClients (rn w) + 1).
Proof. rewrite launch_cases. cbv zeta. destruct (paced w); reflexivity. Qed.

Lemma launch_rest quit w :
  chans (launch quit w) = chans w /\
  spawners (launch quit w) = spawners w /\
  subscriptions (launch quit w) = subscriptions w.
Proof. rewrite launch_cases. cbv zeta. destruct (paced w); repeat split. Qed.

Lemma same_but_count_paced w1 w2 :
  same_but_count (rn w1) (rn w2) -> paced w1 = paced w2.
Proof.
  unfold paced, same_but_count. intros Hsame.
  rewrite (f_equal hatchRate Hsame : hatchRate (rn w1) = hatchRate (rn w2)).
  rewrite (f_equal hatchType Hsame : hatchType (rn w1) = hatchType (rn w2)).
  reflexivity.
Qed.

(** What [k] launches in a row leave behind. *)
Lemma launches_spec (quit : chan) (k : nat) (w : world) :
  exists tk,
    trace (Nat.iter k (launch quit) w) = trace w ++ tk /\
    workers_of tk = replicate k quit /\
    sleeps tk = (if paced w then Z.of_nat k else 0) /\
    fired tk = [] /\ sent tk = [] /\
    same_but_count (rn (Nat.iter k (launch quit) w)) (rn w) /\
    (forall c, numClients (rn w) = Go.int32 c ->
       numClients (rn (Nat.iter k (launch quit) w)) = Go.int32 (c + Z.of_nat k)) /\
    chans (Nat.iter k (launch quit) w) = chans w /\
    spawners (Nat.iter k (launch quit) w) = spawners w /\
    subscriptions (Nat.iter k (launch quit) w) = subscriptions w.
Proof.
  induction k as [|k IH].
  - exists []. cbn. rewrite app_nil_r. destruct (paced w);
      repeat split; try reflexivity; intros c ->; f_equal; lia.
  - destruct IH as (tk & Htrace & Hworkers & Hsleeps & Hfired & Hsent & Hsame
                    & Hnum & Hchans & Hspawners & Hsubs).
    change (Nat.iter (S k) (launch quit) w)
      with (launch quit (Nat.iter k (launch quit) w)).
    set (wk := Nat.iter k (launch quit) w) in *.
    pose proof (same_but_count_paced wk w Hsame) as Hpaced.
    destruct (launch_rest quit wk) as (Hc1 & Hs1 & Hb1).
    exists (tk ++ GoWorker quit :: (if paced w then [Sleep (hatchRate (rn wk))] else [])).
    split; [rewrite launch_trace, Htrace, Hpaced, <- app_assoc; reflexivity|].
    split.
    { unfold workers_of in *. rewrite omap_app, Hworkers.
      destruct (paced w); cbn; rewrite <- replicate_S_end; reflexivity. }
    split.
    { unfold sleeps in *. rewrite omap_app, length_app.
      destruct (paced w); cbn in *; lia. }
    split; [rewrite fired_app, Hfired; destruct (paced w); reflexivity|].
    split; [rewrite sent_app, Hsent; destruct (paced w); reflexivity|].
    split.
    { pose proof (launch_same quit wk) as Hsame1. unfold same_but_count in *.
      rewrite Hsame1. exact Hsame. }
    split.
    { intros c Hc. rewrite launch_numClients, (Hnum c Hc), int32_succ. f_equal. lia. }
    rewrite Hc1, Hs1, Hb1. repeat split; assumption.
Qed.

(** The shape of a run of [spawnWorkers]: some number [k] of launches in a
    row, each after a test that found [quit] open, and then either the
    return from the [quit] case, at a test that found it closed, or, with
    the count reached, the call of the callback. *)
Lemma spawnWorkers_loop_shape (observe : Z -> bool) :
  forall (fuel : nat) (s : spawner) (w : world),
    sp_pc s = SpawnLooping ->
    (Z.to_nat (sp_spawnCount s - sp_i s) < fuel)%nat ->
    exists k : nat,
      Z.of_nat k <= Z.max 0 (sp_spawnCount s - sp_i s) /\
      (forall j, sp_i s <= j < sp_i s + Z.of_nat k -> observe j = false) /\
      ((sp_i s + Z.of_nat k < sp_spawnCount s /\
        observe (sp_i s + Z.of_nat k) = true /\
        spawnWorkers_loop fuel observe s w
        = Done (set_pc SpawnAborted (set_i (sp_i s + Z.of_nat k) s))
            (Nat.iter k (launch (sp_quit s)) w))
       \/
       (sp_spawnCount s <= sp_i s + Z.of_nat k /\
        spawnWorkers_loop fuel observe s w
        = match completion (sp_hatchCompleteFunc s)
                  (Nat.iter k (launch (sp_quit s)) w) with
          | Done _ w' =>
              Done (set_pc SpawnReturned (set_i (sp_i s + Z.of_nat k) s)) w'
          | Panicked why w' => Panicked why w'
          end)).
Proof.
  induction fuel as [|fuel IH]; intros s w Hpc Hfuel; [lia|].
  rewrite (spawnWorkers_loop_unfold _ _ _ _ Hpc).
  destruct (Z_lt_le_dec (sp_i s) (sp_spawnCount s)) as [Hlt|Hge].
  - destruct (observe (sp_i s)) eqn:Hobs.
    + exists 0%nat. rewrite Z.add_0_r, set_i_same. split; [lia|].
      split; [intros j Hj; lia|]. left. split; [exact Hlt|]. split; [exact Hobs|].
      rewrite (spawnWorkers_iter_abort _ _ Hlt).
      apply spawnWorkers_loop_stopped. destruct s; discriminate.
    + rewrite (spawnWorkers_iter_launch_eq _ _ Hlt).
      destruct (IH (set_i (sp_i s + 1) s) (launch (sp_quit s) w))
        as (k & Hk & Hopen & Hend).
      { destruct s; exact Hpc. }
      { destruct s; cbn in *. lia. }
      replace (sp_spawnCount (set_i (sp_i s + 1) s)) with (sp_spawnCount s)
        in * by (destruct s; reflexivity).
      replace (sp_i (set_i (sp_i s + 1) s)) with (sp_i s + 1)
        in * by (destruct s; reflexivity).
      replace (sp_quit (set_i (sp_i s + 1) s)) with (sp_quit s)
        in * by (destruct s; reflexivity).
      replace (sp_hatchCompleteFunc (set_i (sp_i s + 1) s))
        with (sp_hatchCompleteFunc s) in * by (destruct s; reflexivity).
      replace (set_i (sp_i s + 1 + Z.of_nat k) (set_i (sp_i s + 1) s))
        with (set_i (sp_i s + Z.of_nat (S k)) s) in *
        by (destruct s; unfold set_i; cbn; f_equal; lia).
      rewrite <- Nat.iter_succ_r in Hend.
      exists (S k). split; [lia|]. split.
      * intros j Hj. destruct (Z.eq_dec j (sp_i s)) as [->|Hne]; [exact Hobs|].
        apply Hopen. lia.
      * destruct Hend as [(Hlt' & Hobs' & Hrun)|(Hge' & Hrun)]; [left|right].
        -- split; [lia|]. split; [|exact Hrun].
           replace (sp_i s + Z.of_nat (S k)) with (sp_i s + 1 + Z.of_nat k) by lia.
           exact Hobs'.
        -- split; [lia|]. exact Hrun.
  - exists 0%nat. rewrite Z.add_0_r, set_i_same. split; [lia|].
    split; [intros j Hj; lia|]. right. split; [exact Hge|].
    rewrite (spawnWorkers_iter_finish_eq _ _ _ Hge).
    change (Nat.iter 0 (launch (sp_quit s)) w) with w.
    destruct (completion (sp_hatchCompleteFunc s) w) as [[] w'|why w']; [|reflexivity].
    apply spawnWorkers_loop_stopped. destruct s; discriminate.
Qed.

Lemma completion_spec f w :
  exists tc,
    trace (world_of (completion f w)) = trace w ++ tc /\
    workers_of tc = [] /\ sleeps tc = 0 /\ fired tc = callbacks f /\
    same_but_count_state (rn (world_of (completion f w))) (rn w) /\
    numClients (rn (world_of (completion f w))) = numClients (rn w) /\
    chans (world_of (completion f w)) = chans w /\
    spawners (world_of (completion f w)) = spawners w /\
    subscriptions (world_of (completion f w)) = subscriptions w.
Proof.
  destruct f as [[]|]; cbn.
  - unfold hatchComplete, send, mbind, M_bind, emit, modify, get. cbn.
    destruct (client (rn w)); cbn.
    + eexists. rewrite <- app_assoc. repeat split.
    + eexists. repeat split.
  - exists []. rewrite app_nil_r. repeat split.
Qed.

Lemma world_of_returned (res : result unit) (s : spawner) :
  world_of match res with
           | Done _ w' => Done s w'
           | Panicked why w' => Panicked why w'
           end = world_of res.
Proof. destruct res; reflexivity. Qed.

(** Every run of [spawnWorkers], whatever it sees of [quit]: [k] launches,
    then the return from the [quit] case or the callback. *)
Lemma spawnWorkers_run_spec observe N quit f w :
  exists (k : nat) (t' : list event),
    trace (world_of (spawnWorkers observe N quit f w)) = trace w ++ t' /\
    0 <= Z.of_nat k <= Z.max 0 N /\
    workers_of t' = replicate k quit /\
    sleeps t' = (if paced w then Z.of_nat k else 0) /\
    (fired t' = [] \/ (Z.of_nat k = Z.max 0 N /\ fired t' = callbacks f)) /\
    (N <= 0 -> fired t' = callbacks f) /\
    same_but_count_state (rn (world_of (spawnWorkers observe N quit f w))) (rn w) /\
    chans (world_of (spawnWorkers observe N quit f w)) = chans w /\
    subscriptions (world_of (spawnWorkers observe N quit f w)) = subscriptions w.
Proof.
  unfold spawnWorkers. unfold mbind, M_bind, get.
  destruct (spawnWorkers_loop_shape observe (S (Z.to_nat N))
              (spawnWorkers_entry N quit f w) w) as (k & Hk & _ & Hend);
    [reflexivity | cbn; lia |].
  cbn [spawnWorkers_entry sp_i sp_spawnCount sp_hatchCompleteFunc sp_quit] in *.
  destruct (launches_spec quit k w)
    as (tk & Htrace & Hworkers & Hsleeps & Hfired & _ & Hsame & _ & Hchans & _ & Hsubs).
  assert (same_but_count_state (rn (Nat.iter k (launch quit) w)) (rn w)) as Hsame'.
  { unfold same_but_count_state, same_but_count in *. rewrite Hsame. reflexivity. }
  exists k. destruct Hend as [(Hlt & _ & ->)|(Hge & ->)].
  - exists tk. cbn [world_of]. split; [exact Htrace|]. split; [lia|].
    split; [exact Hworkers|]. split; [exact Hsleeps|]. split; [left; exact Hfired|].
    split; [lia|]. repeat split; assumption.
  - destruct (completion_spec f (Nat.iter k (launch quit) w))
      as (tc & Htrace2 & Hworkers2 & Hsleeps2 & Hfired2 & Hsame2 & _ & Hchans2 & _ & Hsubs2).
    rewrite !world_of_returned.
    exists (tk ++ tc). split; [rewrite Htrace2, Htrace; symmetry; apply app_assoc|].
    split; [lia|]. split.
    { unfold workers_of in *. rewrite omap_app, Hworkers, Hworkers2. apply app_nil_r. }
    split.
    { unfold sleeps in *. rewrite omap_app, length_app. lia. }
    split; [right; split; [lia | rewrite fired_app, Hfired, Hfired2; reflexivity]|].
    split; [intros _; rewrite fired_app, Hfired, Hfired2; reflexivity|].
    split.
    { unfold same_but_count_state in *. rewrite Hsame2. exact Hsame'. }
    split; [rewrite Hchans2; exact Hchans | rewrite Hsubs2; exact Hsubs].
Qed.


(** Whatever it sees of the cancellation signal, [spawnWorkers] launches
    at most [spawnCount] workers, hands every one of them the [quit]
    channel it was given, and calls the callback at most once; it opens and
    closes no channel, changes no subscription, and of the runner's fields
    it changes the worker count and (through the callback) the state
    only. *)
Theorem spawnWorkers_confined (observe : Z -> bool) (N : Z) (quit : chan)
    (f : option callback) (w : world) :
  exists t',
    trace (world_of (spawnWorkers observe N quit f w)) = trace w ++ t' /\
    0 <= launched t' <= Z.max 0 N /\
    Forall (fun q => q = quit) (workers_of t') /\
    (length (fired t') <= 1)%nat /\
    same_but_count_state (rn (world_of (spawnWorkers observe N quit f w))) (rn w) /\
    chans (world_of (spawnWorkers observe N quit f w)) = chans w /\
    subscriptions (world_of (spawnWorkers observe N quit f w)) = subscriptions w.
Proof.
  destruct (spawnWorkers_run_spec observe N quit f w)
    as (k & t' & Htrace & Hk & Hworkers & _ & Hfired & _ & Hsame & Hchans & Hsubs).
  exists t'. split; [exact Htrace|]. split.
  { unfold launched. rewrite Hworkers, length_replicate. exact Hk. }
  split.
  { rewrite Hworkers. apply Forall_forall. intros q Hq.
    apply elem_of_replicate in Hq as [-> _]. reflexivity. }
  split.
  { destruct Hfired as [-> | [_ ->]]; [cbn; lia|]. destruct f; cbn; lia. }
  repeat split; assumption.
Qed.

(** A spawn count of zero or less: no worker is launched, the worker
    count stays as it is, and the callback is called although nothing was
    ramped up, even when the cancellation signal is already set. *)
Theorem spawnWorkers_nothing_to_spawn (observe : Z -> bool) (N : Z) (quit : chan)
    (f : option callback) (w : world) :
  N <= 0 ->
  exists t',
    trace (world_of (spawnWorkers observe N quit f w)) = trace w ++ t' /\
    launched t' = 0 /\
    fired t' = callbacks f /\
    numClients (rn (world_of (spawnWorkers observe N quit f w))) = numClients (rn w).
Proof.
  intros HN. unfold spawnWorkers. unfold mbind, M_bind, get.
  rewrite (spawnWorkers_loop_unfold (Z.to_nat N) observe
             (spawnWorkers_entry N quit f w) w eq_refl).
  rewrite spawnWorkers_iter_finish_eq by (cbn; lia).
  cbn [spawnWorkers_entry sp_hatchCompleteFunc].
  destruct (completion_spec f w)
    as (tc & Htrace & Hworkers & _ & Hfired & _ & Hnum & _).
  destruct (completion f w) as [[] w'|why w'] eqn:E; cbn [world_of] in *.
  - rewrite spawnWorkers_loop_stopped by discriminate. cbn [world_of].
    exists tc. unfold launched. rewrite Hworkers. repeat split; assumption.
  - exists tc. unfold launched. rewrite Hworkers. repeat split; assumption.
Qed.

Lemma spawnWorkers_nothing_to_spawn_witness :
  0 <= 0 /\
  exists t',
    trace (world_of (spawnWorkers (fun _ => true) 0 (ChanRef 1) (Some HatchComplete)
                       agent_ready))
    = trace agent_ready ++ t' /\
    launched t' = 0 /\
    fired t' = callbacks (Some HatchComplete) /\
    numClients (rn (world_of (spawnWorkers (fun _ => true) 0 (ChanRef 1)
                                (Some HatchComplete) agent_ready)))
    = numClients (rn agent_ready).
Proof.
  split; [lia|].
  apply (spawnWorkers_nothing_to_spawn (fun _ => true) 0 (ChanRef 1)
           (Some HatchComplete) agent_ready). lia.
Defined.

(** Three users at two per second in the smooth style: a pause after each
    of the three launches, then the callback. *)
Example paced_rampup :
  trace (world_of (spawnWorkers (fun _ => false) 3 (ChanRef 1) (Some HatchComplete)
                     agent_hatching_three))
  = trace agent_hatching_three ++
    [GoWorker (ChanRef 1); Sleep 2; GoWorker (ChanRef 1); Sleep 2;
     GoWorker (ChanRef 1); Sleep 2; CallHatchCompleteFunc HatchComplete;
     Send (newMessage "hatch_complete" (Some {[ "count" := VInt32 3 ]}) "node")].
Proof. vm_compute. reflexivity. Qed.

(** ** stop *)

Lemma panicked_bind_l {A B} (c : M A) (k : A -> M B) w :
  panicked (c w) = true -> panicked ((c ≫= k) w) = true.
Proof. unfold mbind, M_bind. destruct (c w); [discriminate | reflexivity]. Qed.

(** Before it closes the signal, [stop] touches the trace only. *)
Lemma stop_prefix_keeps w :
  rn (world_of ((outputOnStop;; Events_Publish "boomer:stop" []) w)) = rn w /\
  chans (world_of ((outputOnStop;; Events_Publish "boomer:stop" []) w)) = chans w.
Proof.
  apply (keeps_bind (fun w' => rn w' = rn w /\ chans w' = chans w)).
  - apply keeps_get. intros w0. apply keeps_for_range. intros o.
    apply keeps_emit. intros f w1 H. exact H.
  - intros _. apply keeps_Events_Publish. intros f w1 H. exact H.
  - split; reflexivity.
Qed.

Lemma stop_assoc w :
  stop w =
  ((outputOnStop;; Events_Publish "boomer:stop" []);;
   w' ← get;
   close_chan (stopChan (rn w'));;
   if rateLimitEnabled (rn w') then emit RateLimiterStop else mret tt) w.
Proof.
  unfold stop, mbind, M_bind. destruct (outputOnStop w); reflexivity.
Qed.

(** When [stop] returns, the signal was open, is now closed, and the
    runner's fields are as they were. *)
Lemma stop_returns_closed (w w' : world) :
  stop w = Done tt w' ->
  signal_open (stopChan (rn w)) w /\
  is_closed (stopChan (rn w')) w' = true /\
  rn w' = rn w.
Proof.
  rewrite stop_assoc. destruct (stop_prefix_keeps w) as [Hrn Hchans].
  unfold mbind at 1, M_bind at 1.
  destruct ((outputOnStop;; Events_Publish "boomer:stop" []) w) as [[] w1|];
    [|discriminate].
  cbn [world_of] in Hrn, Hchans.
  unfold mbind at 1, M_bind at 1, get at 1. rewrite Hrn.
  unfold mbind at 1, M_bind at 1, close_chan.
  destruct (stopChan (rn w)) as [|id] eqn:Hc; [discriminate|].
  rewrite Hchans. destruct (chans w !! id) as [[]|] eqn:Hopen; try discriminate.
  intros Hdone.
  assert (w' = with_trace (fun t => t ++ limiter_stopped w)
                 (with_chans (fun h => <[id := true]> h) w1)) as ->.
  { unfold limiter_stopped.
    destruct (rateLimitEnabled (rn w)); injection Hdone as <-; [reflexivity|].
    unfold with_trace. cbn. rewrite app_nil_r. reflexivity. }
  split; [exists id; split; [reflexivity | exact Hopen]|].
  cbn. rewrite Hrn, Hc. split; [|reflexivity].
  unfold is_closed. cbn. rewrite Hchans, list_lookup_insert_eq; [reflexivity|].
  apply lookup_lt_is_Some_1. eauto.
Qed.

Lemma stop_not_open w :
  ~ signal_open (stopChan (rn w)) w -> panicked (stop w) = true.
Proof.
  intros Hnot. destruct (stop w) as [[] w'|why w'] eqn:Hstop; [|reflexivity].
  exfalso. apply Hnot. apply (stop_returns_closed w w' Hstop).
Qed.

(** [stop] returns only on an open cancellation signal, which it leaves
    closed, the runner's fields untouched; on a signal that is nil (no
    hatch cycle yet) or already closed it panics. *)
Theorem stop_needs_open_signal (w : world) :
  (forall w',
     stop w = Done tt w' ->
     signal_open (stopChan (rn w)) w /\
     is_closed (stopChan (rn w')) w' = true /\
     rn w' = rn w) /\
  (stopChan (rn w) = ChanNil \/ is_closed (stopChan (rn w)) w = true ->
   panicked (stop w) = true).
Proof.
  split; [apply stop_returns_closed|].
  intros [Hnil | Hclosed]; apply stop_not_open.
  - intros (id & Hc & _). rewrite Hnil in Hc. discriminate.
  - intros (id & Hc & Hopen). unfold is_closed in Hclosed.
    rewrite Hc, Hopen in Hclosed. discriminate.
Qed.

Lemma stop_needs_open_signal_witness :
  exists w',
    stop agent_running = Done tt w' /\
    signal_open (stopChan (rn agent_running)) agent_running /\
    is_closed (stopChan (rn w')) w' = true /\
    rn w' = rn agent_running.
Proof.
  assert (exists w', stop agent_running = Done tt w') as [w' Hrun]
    by (eexists; vm_compute; reflexivity).
  exists w'. split; [exact Hrun|].
  apply (proj1 (stop_needs_open_signal agent_running) w' Hrun).
Defined.

Lemma closed_not_open c w : is_closed c w = true -> ~ signal_open c w.
Proof.
  intros Hclosed (id & -> & Hopen). unfold is_closed in Hclosed.
  rewrite Hopen in Hclosed. discriminate.
Qed.

(** Two calls of [stop] with no [startHatching] in between always end in
    a panic: the second call finds the signal closed by the first. *)
Theorem stop_twice_panics (w : world) : panicked ((stop;; stop) w) = true.
Proof.
  unfold mbind, M_bind. destruct (stop w) as [[] w'|why w'] eqn:Hstop; [|reflexivity].
  apply stop_not_open, closed_not_open.
  apply (stop_returns_closed w w' Hstop).
Qed.

(** In [hatching] and [running], a hatch, stop or quit message received
    while the cycle's cancellation signal is not open makes [onMessage]
    panic: each of the three branches calls [stop] first. *)
Theorem onMessage_on_closed_signal_panics (msg : message) (w : world) :
  state (rn w) = stateHatching \/ state (rn w) = stateRunning ->
  stops_cycle (Type_ msg) ->
  ~ signal_open (stopChan (rn w)) w ->
  panicked (onMessage msg w) = true.
Proof.
  intros Hstate Htype Hnot.
  assert (onMessage msg w =
          if String.eqb (Type_ msg) "hatch" then
            (modify (with_rn (set_state stateHatching));; stop;; onHatchMessage msg) w
          else if String.eqb (Type_ msg) "stop" then
            (stop;;
             modify (with_rn (set_state stateStopped));;
             send "client_stopped" None;;
             send "client_ready" None;;
             modify (with_rn (set_state stateInit))) w
          else
            (stop;; Events_Publish "boomer:quit" [];;
             modify (with_rn (set_state stateInit))) w) as ->.
  { unfold onMessage. unfold mbind at 1, M_bind at 1, get at 1. cbv zeta.
    destruct Htype as [-> | [-> | ->]]; destruct Hstate as [-> | ->]; reflexivity. }
  destruct (String.eqb (Type_ msg) "hatch"); [|destruct (String.eqb (Type_ msg) "stop")].
  - unfold mbind at 1, M_bind at 1, modify. apply panicked_bind_l, stop_not_open.
    exact Hnot.
  - apply panicked_bind_l, stop_not_open. exact Hnot.
  - apply panicked_bind_l, stop_not_open. exact Hnot.
Qed.

Lemma onMessage_on_closed_signal_panics_witness :
  (state (rn (world_of (spawner_step 0 agent_stopped_late))) = stateHatching \/
   state (rn (world_of (spawner_step 0 agent_stopped_late))) = stateRunning) /\
  stops_cycle (Type_ (hatch_msg (VInt64 1) (VFloat64 1))) /\
  ~ signal_open (stopChan (rn (world_of (spawner_step 0 agent_stopped_late))))
      (world_of (spawner_step 0 agent_stopped_late)) /\
  panicked (onMessage (hatch_msg (VInt64 1) (VFloat64 1))
              (world_of (spawner_step 0 agent_stopped_late))) = true.
Proof.
  assert (~ signal_open (stopChan (rn (world_of (spawner_step 0 agent_stopped_late))))
            (world_of (spawner_step 0 agent_stopped_late))) as Hnot.
  { apply closed_not_open. vm_compute. reflexivity. }
  split; [right; vm_compute; reflexivity|]. split; [left; reflexivity|].
  split; [exact Hnot|].
  apply (onMessage_on_closed_signal_panics (hatch_msg (VInt64 1) (VFloat64 1))
           (world_of (spawner_step 0 agent_stopped_late)));
    [right; vm_compute; reflexivity | left; reflexivity | exact Hnot].
Defined.

(** Closing a local runner that has not hatched yet: the relay's close
    case calls [stop] on the nil signal and panics. *)
Example local_close_before_hatch :
  localRunner_onClose (newLocalRunner [taskA] false 1 "" 0)
  = Panicked "close of nil channel"
      (with_trace (fun _ => [Publish "boomer:quit" []; OutputOnStop 0;
                             Publish "boomer:stop" []])
         (newLocalRunner [taskA] false 1 "" 0)).
Proof. reflexivity. Qed.

(** ** Agent mode: what the state machine leaves alone *)

(** A message the state machine has no case for is dropped: [onMessage]
    returns and nothing has changed, neither the state nor the signal, and
    nothing is sent or published.  That is so for every message before
    [run] has set the state, for every message type other than hatch, stop
    and quit, and for a stop received in [ready] or [stopped]. *)
Theorem onMessage_ignores (msg : message) (w : world) :
  ignored (state (rn w)) (Type_ msg) ->
  onMessage msg w = Done tt w.
Proof.
  unfold onMessage. unfold mbind at 1, M_bind at 1, get at 1. cbv zeta.
  intros [Hstate | [(Hhatch & Hstop & Hquit) | (-> & [-> | ->])]].
  - unfold hatchable in Hstate.
    destruct (String.eqb_spec (state (rn w)) stateInit) as [E|_]; [tauto|].
    destruct (String.eqb_spec (state (rn w)) stateHatching) as [E|_]; [tauto|].
    destruct (String.eqb_spec (state (rn w)) stateRunning) as [E|_]; [tauto|].
    destruct (String.eqb_spec (state (rn w)) stateStopped) as [E|_]; [tauto|].
    reflexivity.
  - apply String.eqb_neq in Hhatch, Hstop, Hquit. rewrite Hhatch, Hstop, Hquit.
    destruct (String.eqb (state (rn w)) stateInit); [reflexivity|].
    destruct (String.eqb (state (rn w)) stateHatching
              || String.eqb (state (rn w)) stateRunning); [reflexivity|].
    destruct (String.eqb (state (rn w)) stateStopped); reflexivity.
  - reflexivity.
  - reflexivity.
Qed.

Lemma onMessage_ignores_witness :
  ignored (state (rn agent_ready)) (Type_ stop_msg) /\
  onMessage stop_msg agent_ready = Done tt agent_ready.
Proof.
  assert (ignored (state (rn agent_ready)) (Type_ stop_msg)) as Hignored
    by (right; right; split; [reflexivity | left; reflexivity]).
  split; [exact Hignored|].
  apply (onMessage_ignores stop_msg agent_ready Hignored).
Defined.

(** Before [run] the state is the empty string and every message is
    dropped, a hatch message included. *)
Example message_before_run :
  onMessage (hatch_msg (VInt64 5) (VFloat64 2)) agent0 = Done tt agent0.
Proof. reflexivity. Qed.

(** ** Agent mode: a hatch cycle from the message to [running] *)

Lemma begin_hatch_cycle_spec workers rate w :
  client (rn w) = true ->
  stats (rn w) = true ->
  nothing_subscribed "boomer:hatch" w ->
  begin_hatch_cycle workers rate w = Done tt (hatch_begun workers rate w).
Proof.
  intros Hclient Hstats Hnone. unfold begin_hatch_cycle, send.
  unfold mbind at 1, M_bind at 1. unfold mbind at 1, M_bind at 1, get at 1.
  rewrite Hclient. unfold emit at 1, modify at 1.
  unfold mbind at 1, M_bind at 1.
  rewrite Events_Publish_nothing_subscribed by exact Hnone.
  unfold mbind at 1, M_bind at 1, get at 1. cbn [rn with_trace].
  unfold mbind at 1, M_bind at 1. unfold hatch_begun, limiter_started.
  destruct (rateLimitEnabled (rn w)); cbn -[startHatching hatching];
    rewrite startHatching_spec by exact Hstats;
    unfold hatching, with_trace; cbn; rewrite <- !app_assoc; reflexivity.
Qed.

(** A well-formed hatch message in [ready] or [stopped]. *)
Lemma onMessage_hatch_begins msg f clients workers w :
  Type_ msg = "hatch" ->
  state (rn w) = stateInit \/ state (rn w) = stateStopped ->
  map_index (Data msg) "hatch_rate" = Some (VFloat64 f) ->
  map_index (Data msg) "num_clients" = Some clients ->
  signed_count clients = Some workers ->
  client (rn w) = true ->
  stats (rn w) = true ->
  nothing_subscribed "boomer:hatch" w ->
  onMessage msg w
  = Done tt (hatch_begun workers (Go.int_of_float64 f)
               (with_rn (set_state stateHatching) w)).
Proof.
  intros Htype Hstate Hrate Hclients Hcount Hclient Hstats Hnone.
  rewrite (onMessage_hatch msg w Htype)
    by (destruct Hstate as [E|E]; rewrite E; unfold hatchable; tauto).
  assert (String.eqb (state (rn w)) stateHatching
          || String.eqb (state (rn w)) stateRunning = false) as ->
    by (destruct Hstate as [E|E]; rewrite E; reflexivity).
  unfold mbind, M_bind, modify, mret, M_ret.
  rewrite (onHatchMessage_well_formed msg (VFloat64 f) clients
             (Go.int_of_float64 f) workers) by auto.
  apply begin_hatch_cycle_spec; assumption.
Qed.

Lemma spawner_step_launch tid s w :
  spawners w !! tid = Some s ->
  sp_pc s = SpawnLooping ->
  sp_i s < sp_spawnCount s ->
  is_closed (sp_quit s) w = false ->
  spawner_step tid w
  = Done tt (with_spawners (fun l => <[tid := set_i (sp_i s + 1) s]> l)
               (launch (sp_quit s) w)).
Proof.
  intros Hlook Hpc Hlt Hopen. unfold spawner_step.
  unfold mbind at 1, M_bind at 1, get at 1. rewrite Hlook, Hpc, Hopen.
  unfold mbind, M_bind. rewrite (spawnWorkers_iter_launch_eq _ _ Hlt). reflexivity.
Qed.

Lemma spawner_step_abort tid s w :
  spawners w !! tid = Some s ->
  sp_pc s = SpawnLooping ->
  sp_i s < sp_spawnCount s ->
  is_closed (sp_quit s) w = true ->
  spawner_step tid w
  = Done tt (with_spawners (fun l => <[tid := set_pc SpawnAborted s]> l) w).
Proof.
  intros Hlook Hpc Hlt Hclosed. unfold spawner_step.
  unfold mbind at 1, M_bind at 1, get at 1. rewrite Hlook, Hpc, Hclosed.
  unfold mbind, M_bind. rewrite (spawnWorkers_iter_abort _ _ Hlt). reflexivity.
Qed.

Lemma spawner_step_done tid s w :
  spawners w !! tid = Some s ->
  sp_pc s <> SpawnLooping ->
  spawner_step tid w = Done tt w.
Proof.
  intros Hlook Hpc. unfold spawner_step.
  unfold mbind at 1, M_bind at 1, get at 1. rewrite Hlook.
  destruct (sp_pc s); [contradiction | reflexivity..].
Qed.

Lemma completion_hatchComplete w :
  client (rn w) = true ->
  completion (Some HatchComplete) w = Done tt (completed w).
Proof.
  intros Hclient. unfold completion, call, hatchComplete, send, completed.
  unfold mbind, M_bind, emit, modify, get. cbn. rewrite Hclient. cbn.
  unfold with_rn, with_trace. cbn. rewrite <- app_assoc. reflexivity.
Qed.

Lemma spawner_step_complete tid s w :
  spawners w !! tid = Some s ->
  sp_pc s = SpawnLooping ->
  sp_spawnCount s <= sp_i s ->
  sp_hatchCompleteFunc s = Some HatchComplete ->
  client (rn w) = true ->
  spawner_step tid w
  = Done tt (with_spawners (fun l => <[tid := set_pc SpawnReturned s]> l)
               (completed w)).
Proof.
  intros Hlook Hpc Hge Hf Hclient. unfold spawner_step.
  unfold mbind at 1, M_bind at 1, get at 1. rewrite Hlook, Hpc.
  unfold mbind, M_bind. rewrite (spawnWorkers_iter_finish_eq _ _ _ Hge), Hf.
  rewrite (completion_hatchComplete w Hclient). reflexivity.
Qed.

Lemma launches_with_spawners f quit k w :
  Nat.iter k (launch quit) (with_spawners f w)
  = with_spawners f (Nat.iter k (launch quit) w).
Proof.
  induction k as [|k IH]; [reflexivity|].
  change (Nat.iter (S k) (launch quit) (with_spawners f w))
    with (launch quit (Nat.iter k (launch quit) (with_spawners f w))).
  rewrite IH. apply launch_with_spawners.
Qed.

Lemma with_spawners_insert_insert tid (a b : spawner) w :
  with_spawners (fun l => <[tid := a]> l) (with_spawners (fun l => <[tid := b]> l) w)
  = with_spawners (fun l => <[tid := a]> l) w.
Proof. unfold with_spawners. cbn. rewrite list_insert_insert_eq. reflexivity. Qed.

Lemma exec_cons a acts w :
  exec (a :: acts) w =
  match step a w with
  | Done _ w' => exec acts w'
  | Panicked why w' => Panicked why w'
  end.
Proof. reflexivity. Qed.

Lemma exec_app acts1 acts2 w :
  exec (acts1 ++ acts2) w =
  match exec acts1 w with
  | Done _ w' => exec acts2 w'
  | Panicked why w' => Panicked why w'
  end.
Proof.
  revert w. induction acts1 as [|a acts1 IH]; intros w; [reflexivity|].
  cbn [app]. rewrite !exec_cons. destruct (step a w) as [[] w'|]; [apply IH | reflexivity].
Qed.

(** A spawner the scheduler lets run while its signal stays open:
    [n] passes are [n] launches. *)
Lemma exec_spawns tid :
  forall (n : nat) (s : spawner) (w : world),
    spawners w !! tid = Some s ->
    sp_pc s = SpawnLooping ->
    is_closed (sp_quit s) w = false ->
    sp_spawnCount s - sp_i s = Z.of_nat n ->
    exec (replicate n (Spawn tid)) w
    = Done tt (with_spawners (fun l => <[tid := set_i (sp_spawnCount s) s]> l)
                 (Nat.iter n (launch (sp_quit s)) w)).
Proof.
  induction n as [|n IH]; intros s w Hlook Hpc Hopen Hleft.
  - cbn. replace (sp_spawnCount s) with (sp_i s) by lia. rewrite set_i_same.
    unfold with_spawners. rewrite (list_insert_id _ _ _ Hlook).
    destruct w; reflexivity.
  - cbn [replicate]. rewrite exec_cons. cbn [step].
    rewrite (spawner_step_launch tid s w Hlook Hpc) by (assumption || lia).
    destruct (launch_rest (sp_quit s) w) as (Hchans & Hspawners & _).
    rewrite (IH (set_i (sp_i s + 1) s)).
    + replace (sp_quit (set_i (sp_i s + 1) s)) with (sp_quit s)
        by (destruct s; reflexivity).
      replace (set_i (sp_spawnCount (set_i (sp_i s + 1) s)) (set_i (sp_i s + 1) s))
        with (set_i (sp_spawnCount s) s) by (destruct s; reflexivity).
      rewrite launches_with_spawners, with_spawners_insert_insert.
      rewrite <- Nat.iter_succ_r. reflexivity.
    + cbn. rewrite Hspawners. apply list_lookup_insert_eq.
      apply lookup_lt_is_Some_1. eauto.
    + destruct s; exact Hpc.
    + replace (sp_quit (set_i (sp_i s + 1) s)) with (sp_quit s)
        by (destruct s; reflexivity).
      unfold is_closed in *. cbn. rewrite Hchans. exact Hopen.
    + destruct s; cbn in *. lia.
Qed.

Lemma same_but_count_fields r1 r2 :
  same_but_count r1 r2 ->
  hatchRate r1 = hatchRate r2 /\ state r1 = state r2 /\ client r1 = client r2 /\
  stopChan r1 = stopChan r2 /\ nodeID r1 = nodeID r2 /\
  rateLimitEnabled r1 = rateLimitEnabled r2 /\ outputs r1 = outputs r2.
Proof.
  unfold same_but_count. intros H.
  repeat split;
    [ exact (f_equal hatchRate H) | exact (f_equal state H)
    | exact (f_equal client H) | exact (f_equal stopChan H)
    | exact (f_equal nodeID H) | exact (f_equal rateLimitEnabled H)
    | exact (f_equal outputs H) ].
Qed.

Lemma sent_OutputOnStart (os : list nat) : sent (map OutputOnStart os) = [].
Proof. induction os as [|o os IH]; [reflexivity | exact IH]. Qed.

Lemma sent_limiter_started w : sent (limiter_started w) = [].
Proof. unfold limiter_started. destruct (rateLimitEnabled (rn w)); reflexivity. Qed.

(** A hatch cycle, from the message to [running].  A well-formed hatch
    message for [N] users, received in [ready] or [stopped] by a connected
    agent, followed by the passes of the spawner it starts, with nothing in
    between: the agent is in [running] with [N] workers counted, on an open
    cancellation signal, at the rate of the message; it has sent [hatching]
    and then [hatch_complete], the latter carrying the count [N]. *)
Theorem hatch_reaches_running (msg : message) (f : float) (clients : value)
    (N : Z) (w : world) :
  Type_ msg = "hatch" ->
  state (rn w) = stateInit \/ state (rn w) = stateStopped ->
  map_index (Data msg) "hatch_rate" = Some (VFloat64 f) ->
  map_index (Data msg) "num_clients" = Some clients ->
  signed_count clients = Some N ->
  0 <= N <= Go.max_int32 ->
  client (rn w) = true ->
  stats (rn w) = true ->
  nothing_subscribed "boomer:hatch" w ->
  exists w' t0,
    exec (Recv msg :: replicate (Z.to_nat N) (Spawn (length (spawners w)))
            ++ [Spawn (length (spawners w))]) w = Done tt w' /\
    state (rn w') = stateRunning /\
    numClients (rn w') = N /\
    hatchRate (rn w') = Go.int_of_float64 f /\
    signal_open (stopChan (rn w')) w' /\
    sent (trace w') = sent (trace w) ++ ["hatching"; "hatch_complete"] /\
    trace w' = t0 ++ [Send (newMessage "hatch_complete"
                              (Some {[ "count" := VInt32 N ]}) (nodeID (rn w)))].
Proof.
  intros Htype Hstate Hrate Hclients Hcount HN Hclient Hstats Hnone.
  set (tid := length (spawners w)).
  set (q := ChanRef (length (chans w))).
  set (w1 := hatch_begun N (Go.int_of_float64 f) (with_rn (set_state stateHatching) w)).
  set (s := mkSpawner N q (Some HatchComplete) (getWeightSum (tasks (rn w))) 0
              SpawnLooping).
  assert (spawners w1 !! tid = Some s) as Hlook
    by (apply (list_lookup_middle (spawners w) [] s); reflexivity).
  assert (chans w1 !! length (chans w) = Some false) as Hchan
    by (apply (list_lookup_middle (chans w) [] false); reflexivity).
  assert (is_closed q w1 = false) as Hopen
    by (unfold is_closed, q; rewrite Hchan; reflexivity).
  rewrite exec_cons. cbn [step].
  rewrite (onMessage_hatch_begins msg f clients N w) by assumption.
  fold w1. rewrite exec_app.
  rewrite (exec_spawns tid (Z.to_nat N) s w1 Hlook eq_refl Hopen) by (cbn; lia).
  cbn [sp_quit sp_spawnCount s].
  destruct (launches_spec q (Z.to_nat N) w1)
    as (tk & Htrace & _ & _ & _ & Hsent & Hsame & Hnum & Hchans & Hspawners & _).
  set (wn := Nat.iter (Z.to_nat N) (launch q) w1) in *. clearbody wn.
  destruct (same_but_count_fields _ _ Hsame)
    as (Hrate' & _ & Hclient' & Hstop' & Hnode' & _).
  set (w2 := with_spawners (fun l => <[tid := set_i N s]> l) wn).
  assert (numClients (rn wn) = N) as Hcount'.
  { rewrite (Hnum 0) by reflexivity. rewrite Z2Nat.id by lia.
    apply int32_small. unfold Go.max_int32 in *. lia. }
  rewrite exec_cons. cbn [step].
  rewrite (spawner_step_complete tid (set_i N s) w2).
  - eexists _, _. split; [reflexivity|]. cbn.
    split; [reflexivity|]. split; [exact Hcount'|].
    split; [rewrite Hrate'; reflexivity|].
    split.
    { exists (length (chans w)). split; [rewrite Hstop'; reflexivity|].
      change (chans wn !! length (chans w) = Some false).
      rewrite Hchans. exact Hchan. }
    split.
    { rewrite Htrace. unfold w1, hatch_begun, hatching. cbn.
      rewrite !sent_app, Hsent, sent_OutputOnStart. cbn.
      rewrite sent_limiter_started, !app_nil_r, <- app_assoc. reflexivity. }
    unfold hatch_complete_msg. cbn. rewrite Hcount', Hnode'.
    exact (app_assoc (trace wn) [CallHatchCompleteFunc HatchComplete] [Send _]).
  - unfold w2. cbn. rewrite Hspawners. apply list_lookup_insert_eq.
    apply lookup_lt_is_Some_1. eauto.
  - reflexivity.
  - cbn. lia.
  - reflexivity.
  - unfold w2. cbn. rewrite Hclient'. exact Hclient.
Qed.

Lemma hatch_reaches_running_witness :
  Type_ (hatch_msg (VUint64 5) (VFloat64 2)) = "hatch" /\
  (state (rn agent_ready) = stateInit \/ state (rn agent_ready) = stateStopped) /\
  map_index (Data (hatch_msg (VUint64 5) (VFloat64 2))) "hatch_rate"
  = Some (VFloat64 2) /\
  map_index (Data (hatch_msg (VUint64 5) (VFloat64 2))) "num_clients"
  = Some (VUint64 5) /\
  signed_count (VUint64 5) = Some 5 /\
  0 <= 5 <= Go.max_int32 /\
  client (rn agent_ready) = true /\
  stats (rn agent_ready) = true /\
  nothing_subscribed "boomer:hatch" agent_ready /\
  exists w' t0,
    exec (Recv (hatch_msg (VUint64 5) (VFloat64 2))
            :: replicate (Z.to_nat 5) (Spawn (length (spawners agent_ready)))
            ++ [Spawn (length (spawners agent_ready))]) agent_ready = Done tt w' /\
    state (rn w') = stateRunning /\
    numClients (rn w') = 5 /\
    hatchRate (rn w') = Go.int_of_float64 2 /\
    signal_open (stopChan (rn w')) w' /\
    sent (trace w') = sent (trace agent_ready) ++ ["hatching"; "hatch_complete"] /\
    trace w' = t0 ++ [Send (newMessage "hatch_complete"
                              (Some {[ "count" := VInt32 5 ]})
                              (nodeID (rn agent_ready)))].
Proof.
  assert (0 <= 5 <= Go.max_int32) as Hrange by (vm_compute; split; discriminate).
  assert (nothing_subscribed "boomer:hatch" agent_ready) as Hnone
    by (repeat constructor; discriminate).
  split; [reflexivity|]. split; [left; reflexivity|]. split; [reflexivity|].
  split; [reflexivity|]. split; [reflexivity|]. split; [exact Hrange|].
  split; [reflexivity|]. split; [reflexivity|]. split; [exact Hnone|].
  apply (hatch_reaches_running (hatch_msg (VUint64 5) (VFloat64 2)) 2 (VUint64 5) 5
           agent_ready);
    try reflexivity; [left; reflexivity | exact Hrange | exact Hnone].
Defined.

(** ** Agent mode: a hatch message during a cycle *)

(** A well-formed hatch message received in [hatching] or [running], on
    an open cancellation signal, replaces the cycle: the signal of the old
    cycle is closed, a new and open signal is made, distinct from the old
    one, the worker count starts again from zero, [hatching] is sent, the
    machine is in [hatching], and one more spawner is started, for the new
    count on the new signal.  A spawner of the old cycle that still had
    workers to launch returns at its next pass, launching nothing and
    calling no callback. *)
Theorem hatch_restarts_cycle (msg : message) (f : float) (clients : value)
    (N : Z) (w : world) :
  Type_ msg = "hatch" ->
  state (rn w) = stateHatching \/ state (rn w) = stateRunning ->
  map_index (Data msg) "hatch_rate" = Some (VFloat64 f) ->
  map_index (Data msg) "num_clients" = Some clients ->
  signed_count clients = Some N ->
  client (rn w) = true ->
  stats (rn w) = true ->
  signal_open (stopChan (rn w)) w ->
  nothing_subscribed "boomer:stop" w ->
  nothing_subscribed "boomer:hatch" w ->
  exists w',
    onMessage msg w = Done tt w' /\
    state (rn w') = stateHatching /\
    numClients (rn w') = 0 /\
    hatchRate (rn w') = Go.int_of_float64 f /\
    is_closed (stopChan (rn w)) w' = true /\
    signal_open (stopChan (rn w')) w' /\
    stopChan (rn w') <> stopChan (rn w) /\
    spawners w' = spawners w ++ [spawnWorkers_entry N (stopChan (rn w'))
                                   (Some HatchComplete) w'] /\
    sent (trace w') = sent (trace w) ++ ["hatching"] /\
    forall tid s,
      spawners w !! tid = Some s ->
      sp_quit s = stopChan (rn w) ->
      sp_pc s = SpawnLooping ->
      sp_i s < sp_spawnCount s ->
      spawner_step tid w'
      = Done tt (with_spawners (fun l => <[tid := set_pc SpawnAborted s]> l) w').
Proof.
  intros Htype Hstate Hrate Hclients Hcount Hclient Hstats Hopen Hstop Hhatch.
  set (w0 := with_rn (set_state stateHatching) w).
  destruct (stop_open w0 Hopen Hstop) as (id & Hc & Hrun).
  change (stopChan (rn w0)) with (stopChan (rn w)) in Hc.
  assert (chans w !! id = Some false) as Hid.
  { destruct Hopen as (id' & Hc' & Hid). rewrite Hc in Hc'. injection Hc' as ->.
    exact Hid. }
  assert (id < length (chans w))%nat as Hlt by (apply lookup_lt_is_Some_1; eauto).
  fold (stopped_cycle id w0) in Hrun. set (ws := stopped_cycle id w0) in *.
  assert (onMessage msg w = Done tt (hatch_begun N (Go.int_of_float64 f) ws)) as Hmsg.
  { rewrite (onMessage_hatch msg w Htype)
      by (destruct Hstate as [E|E]; rewrite E; unfold hatchable; tauto).
    assert (String.eqb (state (rn w)) stateHatching
            || String.eqb (state (rn w)) stateRunning = true) as ->
      by (destruct Hstate as [E|E]; rewrite E; reflexivity).
    unfold mbind at 1, M_bind at 1, modify at 1. fold w0.
    unfold mbind, M_bind. rewrite Hrun.
    rewrite (onHatchMessage_well_formed msg (VFloat64 f) clients
               (Go.int_of_float64 f) N) by auto.
    apply begin_hatch_cycle_spec; assumption. }
  assert (chans (hatch_begun N (Go.int_of_float64 f) ws)
          = <[id := true]> (chans w) ++ [false]) as Hchans by reflexivity.
  assert (stopChan (rn (hatch_begun N (Go.int_of_float64 f) ws))
          = ChanRef (length (chans w))) as Hnew.
  { cbn. rewrite length_insert. reflexivity. }
  exists (hatch_begun N (Go.int_of_float64 f) ws).
  split; [exact Hmsg|]. split; [reflexivity|]. split; [reflexivity|].
  split; [reflexivity|].
  assert (is_closed (stopChan (rn w)) (hatch_begun N (Go.int_of_float64 f) ws) = true)
    as Hclosed.
  { rewrite Hc. unfold is_closed. rewrite Hchans.
    rewrite lookup_app_l by (rewrite length_insert; exact Hlt).
    rewrite list_lookup_insert_eq by exact Hlt. reflexivity. }
  split; [exact Hclosed|]. split.
  { exists (length (chans w)). split; [exact Hnew|]. rewrite Hchans.
    apply (list_lookup_middle _ [] false). rewrite length_insert. reflexivity. }
  split; [rewrite Hnew, Hc; intros [= E]; lia|].
  split; [reflexivity|]. split.
  { cbn. unfold limiter_started, limiter_stopped. cbn.
    rewrite !sent_app, sent_OutputOnStart, sent_OutputOnStop.
    destruct (rateLimitEnabled (rn w)); cbn; rewrite !app_nil_r; reflexivity. }
  intros tid s Hlook Hquit Hpc Hleft.
  apply spawner_step_abort; try assumption.
  - change (spawners (hatch_begun N (Go.int_of_float64 f) ws))
      with (spawners w ++ [spawnWorkers_entry N (ChanRef (length (chans ws)))
                             (Some HatchComplete) ws]).
    rewrite lookup_app_l by (apply lookup_lt_is_Some_1; eauto). exact Hlook.
  - rewrite Hquit. exact Hclosed.
Qed.

Lemma hatch_restarts_cycle_witness :
  Type_ (hatch_msg (VInt64 3) (VFloat64 2)) = "hatch" /\
  (state (rn agent_mid_rampup) = stateHatching \/
   state (rn agent_mid_rampup) = stateRunning) /\
  map_index (Data (hatch_msg (VInt64 3) (VFloat64 2))) "hatch_rate"
  = Some (VFloat64 2) /\
  map_index (Data (hatch_msg (VInt64 3) (VFloat64 2))) "num_clients"
  = Some (VInt64 3) /\
  signed_count (VInt64 3) = Some 3 /\
  client (rn agent_mid_rampup) = true /\
  stats (rn agent_mid_rampup) = true /\
  signal_open (stopChan (rn agent_mid_rampup)) agent_mid_rampup /\
  nothing_subscribed "boomer:stop" agent_mid_rampup /\
  nothing_subscribed "boomer:hatch" agent_mid_rampup /\
  exists w',
    onMessage (hatch_msg (VInt64 3) (VFloat64 2)) agent_mid_rampup = Done tt w' /\
    state (rn w') = stateHatching /\
    numClients (rn w') = 0 /\
    hatchRate (rn w') = Go.int_of_float64 2 /\
    is_closed (stopChan (rn agent_mid_rampup)) w' = true /\
    signal_open (stopChan (rn w')) w' /\
    stopChan (rn w') <> stopChan (rn agent_mid_rampup) /\
    spawners w' = spawners agent_mid_rampup ++
                  [spawnWorkers_entry 3 (stopChan (rn w')) (Some HatchComplete) w'] /\
    sent (trace w') = sent (trace agent_mid_rampup) ++ ["hatching"] /\
    forall tid s,
      spawners agent_mid_rampup !! tid = Some s ->
      sp_quit s = stopChan (rn agent_mid_rampup) ->
      sp_pc s = SpawnLooping ->
      sp_i s < sp_spawnCount s ->
      spawner_step tid w'
      = Done tt (with_spawners (fun l => <[tid := set_pc SpawnAborted s]> l) w').
Proof.
  assert (signal_open (stopChan (rn agent_mid_rampup)) agent_mid_rampup) as Hopen
    by (exists 1%nat; split; vm_compute; reflexivity).
  assert (nothing_subscribed "boomer:stop" agent_mid_rampup) as Hstop
    by (vm_compute; repeat constructor; discriminate).
  assert (nothing_subscribed "boomer:hatch" agent_mid_rampup) as Hhatch
    by (vm_compute; repeat constructor; discriminate).
  split; [reflexivity|]. split; [left; vm_compute; reflexivity|].
  split; [reflexivity|]. split; [reflexivity|]. split; [reflexivity|].
  split; [vm_compute; reflexivity|]. split; [vm_compute; reflexivity|].
  split; [exact Hopen|]. split; [exact Hstop|]. split; [exact Hhatch|].
  apply (hatch_restarts_cycle (hatch_msg (VInt64 3) (VFloat64 2)) 2 (VInt64 3) 3
           agent_mid_rampup);
    try (vm_compute; reflexivity);
    [left; vm_compute; reflexivity | exact Hopen | exact Hstop | exact Hhatch].
Defined.

(** ** Local mode *)

Lemma fired_OutputOnStop (os : list nat) : fired (map OutputOnStop os) = [].
Proof. induction os as [|o os IH]; [reflexivity | exact IH]. Qed.

Lemma spawner_step_return tid s w :
  spawners w !! tid = Some s ->
  sp_pc s = SpawnLooping ->
  sp_spawnCount s <= sp_i s ->
  sp_hatchCompleteFunc s = None ->
  spawner_step tid w
  = Done tt (with_spawners (fun l => <[tid := set_pc SpawnReturned s]> l) w).
Proof.
  intros Hlook Hpc Hge Hf. unfold spawner_step.
  unfold mbind at 1, M_bind at 1, get at 1. rewrite Hlook, Hpc.
  unfold mbind, M_bind. rewrite (spawnWorkers_iter_finish_eq _ _ _ Hge), Hf.
  reflexivity.
Qed.

(** The life of a local runner.  [run] on a fresh local runner resets the
    count and starts the one hatch cycle: it leaves exactly one spawner, for
    [hatchCount] users, on the new and open cancellation signal, at the rate
    given to the constructor and with no callback.  That spawner, let run
    for its [hatchCount] launches and its last pass, returns; the count is
    then [hatchCount], the state is still [ready] (nothing ever makes a
    local runner [running]) and nothing was sent to a controller.  When the
    lifecycle signal is then closed, the relay's last act stops the cycle:
    the cancellation signal is closed without a fault. *)
Theorem local_mode_lifecycle (ts : list Task) (rateLimiter : bool) (N : Z)
    (style : string) (rate : Z) :
  0 <= N <= Go.max_int32 ->
  exists w1 w2 w3,
    localRunner_run (newLocalRunner ts rateLimiter N style rate) = Done tt w1 /\
    numClients (rn w1) = 0 /\
    spawners w1 = [spawnWorkers_entry N (stopChan (rn w1)) None w1] /\
    signal_open (stopChan (rn w1)) w1 /\
    exec (replicate (Z.to_nat N) (Spawn 0) ++ [Spawn 0]) w1 = Done tt w2 /\
    map sp_pc (spawners w2) = [SpawnReturned] /\
    numClients (rn w2) = N /\
    launched (trace w2) = N /\
    state (rn w2) = stateInit /\
    hatchRate (rn w2) = rate /\
    localRunner_onClose w2 = Done tt w3 /\
    is_closed (stopChan (rn w3)) w3 = true /\
    sent (trace w3) = [] /\ fired (trace w3) = [].
Proof.
  intros HN. set (w0 := newLocalRunner ts rateLimiter N style rate).
  set (w1 := hatching N rate None
               (with_trace (fun t => t ++ StatsStart ::
                  (if rateLimiter then [RateLimiterStart] else []))
                  (with_rn (set_state stateInit) w0))).
  assert (localRunner_run w0 = Done tt w1) as Hrun
    by (unfold w1, w0; destruct rateLimiter; reflexivity).
  set (q := ChanRef 1).
  set (s := spawnWorkers_entry N q None w1).
  assert (spawners w1 = [s]) as Hspawners1 by reflexivity.
  assert (stopChan (rn w1) = q) as Hq by reflexivity.
  assert (chans w1 = [false; false]) as Hchans1 by reflexivity.
  assert (is_closed q w1 = false) as Hopen1 by reflexivity.
  assert (sent (trace w1) = [] /\ fired (trace w1) = []) as [Hsent1 Hfired1]
    by (unfold w1, w0; destruct rateLimiter; split; reflexivity).
  assert (workers_of (trace w1) = []) as Hworkers1
    by (unfold w1, w0; destruct rateLimiter; reflexivity).
  destruct (launches_spec q (Z.to_nat N) w1)
    as (tk & Htrace & Hworkers & _ & Hfired & Hsent & Hsame & Hnum & Hchans & Hspawners
        & Hsubs).
  set (wn := Nat.iter (Z.to_nat N) (launch q) w1) in *.
  destruct (same_but_count_fields _ _ Hsame)
    as (Hrate2 & Hstate2 & _ & Hstop2 & _ & Hrl2 & Hout2).
  set (w2 := with_spawners (fun l => <[0%nat := set_pc SpawnReturned (set_i N s)]> l) wn).
  assert (exec (replicate (Z.to_nat N) (Spawn 0) ++ [Spawn 0]) w1 = Done tt w2) as Hexec.
  { rewrite exec_app.
    rewrite (exec_spawns 0 (Z.to_nat N) s w1) by (reflexivity || (cbn; lia)).
    cbn [sp_quit sp_spawnCount s spawnWorkers_entry]. fold q. fold wn.
    rewrite exec_cons. cbn [step].
    rewrite (spawner_step_return 0 (set_i N s)).
    - cbn [exec for_range]. unfold mret, M_ret. f_equal.
      apply with_spawners_insert_insert.
    - cbn. rewrite Hspawners, Hspawners1. reflexivity.
    - reflexivity.
    - cbn. lia.
    - reflexivity. }
  assert (signal_open (stopChan (rn w2)) w2) as Hopen.
  { exists 1%nat. change (stopChan (rn w2)) with (stopChan (rn wn)).
    change (chans w2) with (chans wn). rewrite Hstop2, Hchans. split; reflexivity. }
  assert (nothing_subscribed "boomer:quit" w2 /\ nothing_subscribed "boomer:stop" w2)
    as [Hquit Hstop].
  { unfold nothing_subscribed. change (subscriptions w2) with (subscriptions wn).
    rewrite Hsubs. split; constructor. }
  set (wq := with_trace (fun t => t ++ [Publish "boomer:quit" []]) w2).
  destruct (stop_open wq Hopen Hstop) as (id & Hc & Hstopped).
  exists w1, w2. eexists.
  split; [exact Hrun|]. split; [reflexivity|].
  split; [exact Hspawners1|].
  split; [exists 1%nat; split; reflexivity|].
  split; [exact Hexec|].
  split; [cbn; rewrite Hspawners, Hspawners1; reflexivity|].
  split.
  { change (numClients (rn w2)) with (numClients (rn wn)).
    rewrite (Hnum 0) by reflexivity. rewrite Z2Nat.id by lia.
    apply int32_small. unfold Go.max_int32 in *. lia. }
  split.
  { change (trace w2) with (trace wn).
    unfold launched, workers_of in *. rewrite Htrace, omap_app, Hworkers1, Hworkers.
    cbn. rewrite length_replicate. lia. }
  split; [change (state (rn w2)) with (state (rn wn)); rewrite Hstate2; reflexivity|].
  split; [change (hatchRate (rn w2)) with (hatchRate (rn wn)); rewrite Hrate2;
          reflexivity|].
  split.
  { unfold localRunner_onClose, mbind, M_bind.
    rewrite Events_Publish_nothing_subscribed by exact Hquit. exact Hstopped. }
  cbn. change (stopChan (rn wq)) with (stopChan (rn wn)) in Hc. rewrite Hc.
  split.
  { unfold is_closed. cbn. rewrite list_lookup_insert_eq; [reflexivity|].
    rewrite Hchans. rewrite Hstop2 in Hc. injection Hc as <-. cbn. lia. }
  rewrite !sent_app, !fired_app, Htrace, sent_app, fired_app, Hsent, Hfired,
    Hsent1, Hfired1, sent_OutputOnStop.
  unfold limiter_stopped. cbn.
  rewrite fired_OutputOnStop.
  destruct (rateLimitEnabled (rn wn)); split; reflexivity.
Qed.

Lemma local_mode_lifecycle_witness :
  0 <= 10 <= Go.max_int32 /\
  exists w1 w2 w3,
    localRunner_run (newLocalRunner [taskA; taskB] false 10 "" 0) = Done tt w1 /\
    numClients (rn w1) = 0 /\
    spawners w1 = [spawnWorkers_entry 10 (stopChan (rn w1)) None w1] /\
    signal_open (stopChan (rn w1)) w1 /\
    exec (replicate (Z.to_nat 10) (Spawn 0) ++ [Spawn 0]) w1 = Done tt w2 /\
    map sp_pc (spawners w2) = [SpawnReturned] /\
    numClients (rn w2) = 10 /\
    launched (trace w2) = 10 /\
    state (rn w2) = stateInit /\
    hatchRate (rn w2) = 0 /\
    localRunner_onClose w2 = Done tt w3 /\
    is_closed (stopChan (rn w3)) w3 = true /\
    sent (trace w3) = [] /\ fired (trace w3) = [].
Proof.
  assert (0 <= 10 <= Go.max_int32) as Hrange by (vm_compute; split; discriminate).
  split; [exact Hrange|].
  apply (local_mode_lifecycle [taskA; taskB] false 10 "" 0 Hrange).
Defined.

(** In local mode every stats event reaches every sink, in every state:
    each sink is handed the event once (the sinks are served by one
    goroutine each, so no order among them is stated), with the current
    worker count under "user_count" (replacing a count the event may have
    carried) and every other entry as it was; nothing else happens.  An
    event that is the nil map panics at the assignment. *)
Theorem localRunner_report_fans_out (data : payload) (w : world) :
  match data with
  | Some m =>
      exists (m' : gmap string value) (t' : list event),
        localRunner_report data w = Done tt (with_trace (fun t => t ++ t') w) /\
        t' ≡ₚ map (fun o => OutputOnEvent o (Some m')) (outputs (rn w)) /\
        m' !! "user_count" = Some (VInt32 (numClients (rn w))) /\
        forall key, key <> "user_count" -> m' !! key = m !! key
  | None =>
      localRunner_report data w = Panicked "assignment to entry in nil map" w
  end.
Proof.
  destruct data as [m|]; [|reflexivity].
  exists (<["user_count" := VInt32 (numClients (rn w))]> m).
  eexists. split.
  - unfold localRunner_report, outputOnEevent, map_assign.
    unfold mbind, M_bind, get, mret, M_ret. apply for_range_emit.
  - split; [reflexivity|]. split; [apply lookup_insert_eq|].
    intros key Hkey. apply lookup_insert_ne. congruence.
Qed.

(** Two sinks, and an event with a stale count: both sinks get the event
    with the count of the runner. *)
Example local_report_two_sinks :
  exists m' t',
    localRunner_report (Some stale_event) local_two_sinks
    = Done tt (with_trace (fun t => t ++ t') local_two_sinks) /\
    t' ≡ₚ [OutputOnEvent 0 (Some m'); OutputOnEvent 7 (Some m')] /\
    m' !! "user_count" = Some (VInt32 0) /\
    m' !! "num_requests" = Some (VInt64 4).
Proof.
  eexists _, _. split; [reflexivity|]. split; [reflexivity|].
  split; vm_compute; reflexivity.
Qed.

(** ** Agent mode: run *)

(** [run] on a fresh agent.  When the connection fails, [run] returns
    with nothing sent and no handler subscribed, so a quit published
    locally afterwards reaches nobody.  When it succeeds, [client_ready] is
    the one message sent and [onQuiting] the one subscription, and a quit
    published locally afterwards sends one quit message to the
    controller. *)
Theorem slaveRunner_run_connects (id : string) (ts : list Task) (rateLimiter : bool)
    (style : string) :
  (exists w1,
     slaveRunner_run true (newSlaveRunner id ts rateLimiter style) = Done tt w1 /\
     state (rn w1) = stateInit /\
     sent (trace w1) = [] /\
     subscriptions w1 = [] /\
     sent (trace (world_of (Events_Publish "boomer:quit" [] w1))) = [])
  /\
  (exists w1,
     slaveRunner_run false (newSlaveRunner id ts rateLimiter style) = Done tt w1 /\
     state (rn w1) = stateInit /\
     sent (trace w1) = ["client_ready"] /\
     subscriptions w1 = [("boomer:quit", OnQuiting)] /\
     sent (trace (world_of (Events_Publish "boomer:quit" [] w1)))
     = ["client_ready"; "quit"]).
Proof.
  split; eexists; (split; [reflexivity|]); repeat split.
Qed.

(** ** Cancellation reaches the cycle *)

(** Once [stop] has returned, the cycle it stopped is cancelled for
    everyone who polls its signal: a worker's next turn ends the worker
    without a task being selected or run, and a spawner that still had
    workers to launch returns at its next pass without launching any. *)
Theorem stop_cancels_cycle (w w' : world) :
  stop w = Done tt w' ->
  (forall blocked weightSum rnd,
     worker_iter (is_closed (stopChan (rn w)) w') blocked weightSum rnd w'
     = Done WorkerReturn w') /\
  (forall tid s,
     spawners w !! tid = Some s ->
     sp_quit s = stopChan (rn w) ->
     sp_pc s = SpawnLooping ->
     sp_i s < sp_spawnCount s ->
     spawner_step tid w'
     = Done tt (with_spawners (fun l => <[tid := set_pc SpawnAborted s]> l) w')).
Proof.
  intros Hstop.
  destruct (stop_returns_closed w w' Hstop) as (_ & Hclosed & Hrn).
  rewrite Hrn in Hclosed. split.
  - intros blocked weightSum rnd. rewrite Hclosed. reflexivity.
  - intros tid s Hlook Hquit Hpc Hleft.
    apply spawner_step_abort; try assumption.
    + pose proof (stop_spawners w) as Hsp. rewrite Hstop in Hsp. cbn in Hsp.
      rewrite Hsp. exact Hlook.
    + rewrite Hquit. exact Hclosed.
Qed.

Lemma stop_cancels_cycle_witness :
  exists w',
    stop agent_mid_rampup = Done tt w' /\
    (forall blocked weightSum rnd,
       worker_iter (is_closed (stopChan (rn agent_mid_rampup)) w') blocked weightSum rnd w'
       = Done WorkerReturn w') /\
    (forall tid s,
       spawners agent_mid_rampup !! tid = Some s ->
       sp_quit s = stopChan (rn agent_mid_rampup) ->
       sp_pc s = SpawnLooping ->
       sp_i s < sp_spawnCount s ->
       spawner_step tid w'
       = Done tt (with_spawners (fun l => <[tid := set_pc SpawnAborted s]> l) w')).
Proof.
  assert (exists w', stop agent_mid_rampup = Done tt w') as [w' Hstop]
    by (eexists; vm_compute; reflexivity).
  exists w'. split; [exact Hstop|].
  apply (stop_cancels_cycle agent_mid_rampup w' Hstop).
Defined.

(** Five users asked for, two launched, then stop: the spawner's next
    pass launches nothing, and the count stays at two. *)
Example stop_mid_rampup :
  let res := exec [Recv stop_msg; Spawn 0; Spawn 0; Spawn 0] agent_mid_rampup in
  panicked res = false /\
  state (rn (world_of res)) = stateInit /\
  numClients (rn (world_of res)) = 2 /\
  launched (trace (world_of res)) = 2 /\
  sent (trace (world_of res))
  = ["client_ready"; "hatching"; "client_stopped"; "client_ready"].
Proof. vm_compute. repeat split. Qed.

Lemma onMessage_stop_open_witness :
  Type_ stop_msg = "stop" /\
  (state (rn agent_running) = stateHatching \/ state (rn agent_running) = stateRunning) /\
  client (rn agent_running) = true /\
  signal_open (stopChan (rn agent_running)) agent_running /\
  nothing_subscribed "boomer:stop" agent_running /\
  exists w',
    onMessage stop_msg agent_running = Done tt w' /\
    state (rn w') = stateInit /\
    sent (trace w') = sent (trace agent_running) ++ ["client_stopped"; "client_ready"] /\
    stopChan (rn w') = stopChan (rn agent_running) /\
    is_closed (stopChan (rn w')) w' = true /\
    spawners w' = spawners agent_running.
Proof.
  assert (signal_open (stopChan (rn agent_running)) agent_running) as Hopen
    by (exists 1%nat; split; vm_compute; reflexivity).
  assert (nothing_subscribed "boomer:stop" agent_running) as Hnone
    by (vm_compute; repeat constructor; discriminate).
  split; [reflexivity|]. split; [right; vm_compute; reflexivity|].
  split; [vm_compute; reflexivity|]. split; [exact Hopen|]. split; [exact Hnone|].
  apply (onMessage_stop_open stop_msg agent_running);
    [reflexivity | right; vm_compute; reflexivity | vm_compute; reflexivity
    | exact Hopen | exact Hnone].
Defined.

(** ** What a running agent never changes *)

(** Whatever messages arrive, however the spawners are scheduled, and
    whatever stats events and heartbeats occur, the agent keeps the
    configuration it was built and connected with: the task registry, the
    hatch type, the sinks, the node id, the rate limiter, the stats
    collaborator, the client, the lifecycle signal and the subscriptions
    are those of the start, also when the run ends in a panic. *)
Theorem exec_keeps_configuration (acts : list action) (w : world) :
  same_configuration w (world_of (exec acts w)).
Proof.
  apply (keeps_exec (same_configuration w)); try (intros; assumption).
  repeat split.
Qed.

(** ** Closing an agent *)

(** [close] on an agent ends the runner's own loops and nothing else: it
    closes the lifecycle signal and leaves the cancellation signal of the
    hatch cycle as it is, so that workers and spawner of a cycle under way
    are not cancelled ([stop] is not called); state, worker count and
    spawners are untouched and nothing is sent to the controller. *)
Theorem slaveRunner_close_leaves_cycle (w : world) :
  signal_open (closeChan (rn w)) w ->
  stopChan (rn w) <> closeChan (rn w) ->
  exists w',
    slaveRunner_close w = Done tt w' /\
    rn w' = rn w /\
    is_closed (closeChan (rn w')) w' = true /\
    is_closed (stopChan (rn w')) w' = is_closed (stopChan (rn w)) w /\
    spawners w' = spawners w /\
    sent (trace w') = sent (trace w).
Proof.
  intros (id & Hc & Hopen) Hdistinct.
  exists (with_chans (fun h => <[id := true]> h)
            (with_trace (fun t => t ++ released_slave w) w)).
  assert (id < length (chans w))%nat as Hlt by (apply lookup_lt_is_Some_1; eauto).
  split.
  { unfold slaveRunner_close, released_slave. unfold mbind, M_bind, get. rewrite Hc.
    destruct (stats (rn w)), (client (rn w)); cbn; rewrite Hopen; cbn;
      unfold with_chans, with_trace; cbn; rewrite <- ?app_assoc, ?app_nil_r;
      reflexivity. }
  split; [reflexivity|]. cbn [rn with_chans with_trace].
  split.
  { rewrite Hc. unfold is_closed. cbn. rewrite list_lookup_insert_eq by exact Hlt.
    reflexivity. }
  split.
  { rewrite Hc in Hdistinct. unfold is_closed. cbn.
    destruct (stopChan (rn w)) as [|ids]; [reflexivity|].
    rewrite list_lookup_insert_ne by congruence. reflexivity. }
  split; [reflexivity|]. cbn. rewrite sent_app.
  unfold released_slave. destruct (stats (rn w)), (client (rn w)); cbn;
    rewrite ?app_nil_r; reflexivity.
Qed.

Lemma slaveRunner_close_leaves_cycle_witness :
  signal_open (closeChan (rn agent_mid_rampup)) agent_mid_rampup /\
  stopChan (rn agent_mid_rampup) <> closeChan (rn agent_mid_rampup) /\
  exists w',
    slaveRunner_close agent_mid_rampup = Done tt w' /\
    rn w' = rn agent_mid_rampup /\
    is_closed (closeChan (rn w')) w' = true /\
    is_closed (stopChan (rn w')) w'
    = is_closed (stopChan (rn agent_mid_rampup)) agent_mid_rampup /\
    spawners w' = spawners agent_mid_rampup /\
    sent (trace w') = sent (trace agent_mid_rampup).
Proof.
  assert (signal_open (closeChan (rn agent_mid_rampup)) agent_mid_rampup) as Hopen
    by (exists 0%nat; split; vm_compute; reflexivity).
  assert (stopChan (rn agent_mid_rampup) <> closeChan (rn agent_mid_rampup)) as Hne
    by (vm_compute; discriminate).
  split; [exact Hopen|]. split; [exact Hne|].
  apply (slaveRunner_close_leaves_cycle agent_mid_rampup Hopen Hne).
Defined.

(** After [close], the spawner of the cycle under way goes on launching. *)
Example close_mid_rampup :
  let res := (slaveRunner_close;; exec [Spawn 0; Spawn 0; Spawn 0; Spawn 0])
               agent_mid_rampup in
  panicked res = false /\
  state (rn (world_of res)) = stateRunning /\
  numClients (rn (world_of res)) = 5.
Proof. vm_compute. repeat split. Qed.
